(** * pie: task scheduling and training loop (src/pie/trainer.py)

    A shallow embedding of the scheduling core of [pie/trainer.py]:
    [sample_task], [get_target_task], [TaskScheduler], [DelayerScheduler]
    and the control flow of [Trainer].

    Modelling conventions.
    - Python floats are idealised as rationals: scores and best scores
      range over [num], the rationals extended with the two infinities;
      thresholds, factors and the weights of the scheduler are finite and
      range over [Q]. The weights of the sampler leave the range of the
      finite floats for extreme factors, and range over [Float.t]:
      rationals, the two infinities and NaN, with overflow and underflow
      at the limits of the 64-bit floats. The rounding to 53 bits is not
      modelled anywhere.
    - The collaborators from torch (the optimizer classes, the
      learning-rate schedulers) are parameters; constructing one may
      raise.
    - A Python [dict] keyed by task name is a [gmap string _]; a dict that
      is only iterated ([scores.items()], [settings.tasks]) is the list of
      its items in iteration order.
    - A raised exception is a value of [exn]; a method of an object with
      mutable state is a function from the state to a result [res] that
      carries the state reached, also when an exception is raised (Python
      does not roll mutations back).
    - The file written at path [self.fid] is the field [fid] of the
      scheduler: [None] when no file exists, [Some sd] when it holds [sd]. *)

From Stdlib Require Import ZArith QArith Lqa Lia Bool List Ascii String.
From stdpp Require Import gmap strings.
Import ListNotations.

Local Open Scope Z_scope.
Local Open Scope string_scope.

(* ===================================================================== *)
(** ** Python values, exceptions and the state-and-exception monad        *)
(* ===================================================================== *)

Module Py.

(** A float: a rational, or one of [float('inf')], [-float('inf')]. *)
Inductive num : Type :=
| NegInf
| Fin (q : Q)
| PosInf.


(** [x + t] and [x - t] for a finite [t]. *)
Definition add (x : num) (t : Q) : num :=
  match x with
  | Fin q => Fin (q + t)
  | inf => inf
  end.

Definition sub (x : num) (t : Q) : num :=
  match x with
  | Fin q => Fin (q - t)
  | inf => inf
  end.

Definition Qltb (x y : Q) : bool := negb (Qle_bool y x).

(** [x < y] on floats. *)
Definition ltb (x y : num) : bool :=
  match x, y with
  | NegInf, NegInf => false
  | NegInf, _ => true
  | Fin _, NegInf => false
  | Fin a, Fin b => Qltb a b
  | Fin _, PosInf => true
  | PosInf, _ => false
  end.

(** [x > y] is [y < x]. *)
Definition gtb (x y : num) : bool := ltb y x.

(** The order that [ltb] decides. *)
Definition lt (x y : num) : Prop :=
  match x, y with
  | NegInf, NegInf => False
  | NegInf, _ => True
  | Fin _, NegInf => False
  | Fin a, Fin b => (a < b)%Q
  | Fin _, PosInf => True
  | PosInf, _ => False
  end.

(** [x] is [y] or below it. *)
Definition le (x y : num) : Prop := x = y \/ lt x y.

(** The builtin [max(a, b)] of two numbers: [b] only when [b > a]. *)
Definition max (a b : Q) : Q := if Qltb a b then b else a.

(** [str.lower()] on ASCII strings. *)
Definition lower_ascii (c : ascii) : ascii :=
  let n := nat_of_ascii c in
  if (65 <=? n)%nat && (n <=? 90)%nat then ascii_of_nat (n + 32) else c.

Fixpoint lower (s : string) : string :=
  match s with
  | EmptyString => EmptyString
  | String c s' => String (lower_ascii c) (lower s')
  end.

(** [d.get(key, default)] on an optional entry. *)
Definition get {A} (entry : option A) (dflt : A) : A :=
  match entry with Some v => v | None => dflt end.

Section Exceptions.
Context {St : Type}.

(** The exceptions the modelled code raises. [EarlyStopException] is
    the class of trainer.py with its three attributes; the others are
    builtins. *)
Inductive exn : Type :=
| EarlyStopException (task : string) (loss : num) (best_state_dict : St)
| ValueError (msg : string)
| KeyError (key : string)
| FileNotFoundError
| ZeroDivisionError
| IndexError
| TypeError.

(** Outcome of running a method on a state [S]. *)
Inductive res (S A : Type) : Type :=
| Ok (a : A) (s : S)
| Raise (e : exn) (s : S).

Definition M (S A : Type) : Type := S -> res S A.

Definition ret {S A} (a : A) : M S A := fun s => Ok S A a s.

Definition bind {S A B} (m : M S A) (k : A -> M S B) : M S B :=
  fun s => match m s with
           | Ok _ _ a s' => k a s'
           | Raise _ _ e s' => Raise S B e s'
           end.

Definition modify {S} (f : S -> S) : M S unit := fun s => Ok S unit tt (f s).

(** The state a run ends in, whatever its outcome. *)
Definition final {S A} (r : res S A) : S :=
  match r with Ok _ _ _ s => s | Raise _ _ _ s => s end.

(** [for x in xs: body(x)]. *)
Fixpoint for_each {S A} (xs : list A) (body : A -> M S unit) : M S unit :=
  match xs with
  | [] => ret tt
  | x :: xs' => bind (body x) (fun _ => for_each xs' body)
  end.

End Exceptions.

Arguments exn : clear implicits.
Arguments res : clear implicits.
Arguments M : clear implicits.
Arguments Ok {St S A} a s.
Arguments Raise {St S A} e s.

End Py.

Notation "'do' x <- m ; k" := (Py.bind m (fun x => k))
  (at level 10, x name, m at level 100, k at level 200).
Notation "'run' m ; k" := (Py.bind m (fun _ => k))
  (at level 10, m at level 100, k at level 200).

(* ===================================================================== *)
(** ** Settings                                                           *)
(* ===================================================================== *)

(** The [schedule] dict of a task in the settings: every key is optional. *)
Module Schedule.
Record t : Type := Make {
  patience : option Z;
  threshold : option Q;
  factor : option Q;
  min_weight : option Q;
  mode : option string;
  weight : option Q
}.

(** The empty dict [{}]. *)
Definition empty : t := Make None None None None None None.
End Schedule.

(** An entry of [settings.tasks]: [name] is mandatory, [target] and
    [schedule] are read with [task.get]. *)
Module Task.
Record t : Type := Make {
  name : string;
  target : option bool;
  schedule : option Schedule.t
}.
End Task.

(** Truth value of [task.get('target')]: a missing key gives [None]. *)
Definition truthy (o : option bool) : bool := Py.get o false.

(** The attributes of [settings] that trainer.py reads. *)
Module Settings.
Record t : Type := Make {
  tasks : list Task.t;
  include_lm : bool;
  lm_schedule : Schedule.t;
  patience : Z;
  factor : Q;
  threshold : Q;
  min_weight : Q;
  optimizer : string;
  lr_scheduler : string;
  lr_delayed : Z;
  checks_per_epoch : Z;
  report_freq : Z;
  clip_norm : Q
}.
End Settings.

(* ===================================================================== *)
(** ** The floats of the sampler                                          *)
(* ===================================================================== *)

(** The weights of [sample_task] are Python floats, and a small or a
    large [factor] takes them out of the range of the finite floats:
    Python returns an infinity for a quotient, a product or a sum that is
    too large, zero for one that is too small, and NaN for the sum of the
    two infinities. [Float.t] has these values. A result inside the range
    is kept as the exact rational: the rounding to 53 bits is not
    modelled. *)
Module Float.

Inductive t : Type :=
| Num (q : Q)
| Inf
| NegInf
| NaN.

(** A magnitude from [2^1024 - 2^970] on rounds to an infinity. *)
Definition huge : Q := inject_Z (2 ^ 1024 - 2 ^ 970).

(** A magnitude up to [2^-1075], half the least positive float, rounds
    to zero. *)
Definition tiny : Q := 1 # (2 ^ 1075).

(** The float of an exact result. *)
Definition round (q : Q) : t :=
  if Qle_bool huge q then Inf
  else if Qle_bool q (- huge) then NegInf
  else if negb (Qeq_bool q 0) && Qle_bool (- tiny) q && Qle_bool q tiny
       then Num 0
  else Num q.

Definition add (x y : t) : t :=
  match x, y with
  | NaN, _ | _, NaN => NaN
  | Inf, NegInf | NegInf, Inf => NaN
  | Inf, _ | _, Inf => Inf
  | NegInf, _ | _, NegInf => NegInf
  | Num a, Num b => round (a + b)
  end.

Definition sub (x y : t) : t :=
  match x, y with
  | NaN, _ | _, NaN => NaN
  | Inf, Inf | NegInf, NegInf => NaN
  | Inf, _ | _, NegInf => Inf
  | NegInf, _ | _, Inf => NegInf
  | Num a, Num b => round (a - b)
  end.

(** The product of an infinity and a finite [b]. *)
Definition scaled (pos : bool) (b : Q) : t :=
  if Qeq_bool b 0 then NaN
  else if Bool.eqb pos (Py.Qltb 0 b) then Inf else NegInf.

Definition mul (x y : t) : t :=
  match x, y with
  | NaN, _ | _, NaN => NaN
  | Num a, Num b => round (a * b)
  | Inf, Num b | Num b, Inf => scaled true b
  | NegInf, Num b | Num b, NegInf => scaled false b
  | Inf, Inf | NegInf, NegInf => Inf
  | Inf, NegInf | NegInf, Inf => NegInf
  end.

(** [x / d] for a finite [d] other than zero (Python raises
    [ZeroDivisionError] for zero). *)
Definition div (x : t) (d : Q) : t :=
  match x with
  | Num a => round (a / d)
  | Inf => if Py.Qltb 0 d then Inf else NegInf
  | NegInf => if Py.Qltb 0 d then NegInf else Inf
  | NaN => NaN
  end.

(** [x < y] and [x <= y]: false when one of them is NaN. *)
Definition ltb (x y : t) : bool :=
  match x, y with
  | NaN, _ | _, NaN => false
  | Num a, Num b => Py.Qltb a b
  | _, NegInf => false
  | NegInf, _ => true
  | Inf, _ => false
  | Num _, Inf => true
  end.

Definition leb (x y : t) : bool :=
  match x, y with
  | NaN, _ | _, NaN => false
  | Num a, Num b => Qle_bool a b
  | NegInf, _ => true
  | _, NegInf => false
  | _, Inf => true
  | Inf, Num _ => false
  end.

(** [math.isfinite(x)] *)
Definition isfinite (x : t) : bool :=
  match x with Num _ => true | _ => false end.




End Float.

(* ===================================================================== *)
(** ** Task sampling: [sample_task], [get_batch_task], [get_target_task]  *)
(* ===================================================================== *)

(** [random.choices(population, weights)[0]] of the Python standard
    library (3.9 and later), with the uniform draw [random()] in [0, 1)
    given as [u]: cumulative weights, the checks that their total is
    positive and finite, and a binary search ([bisect_right]) for
    [u * total]. *)
Module Random.

Fixpoint accumulate_from (acc : Float.t) (ws : list Float.t) : list Float.t :=
  match ws with
  | [] => []
  | w :: ws' => Float.add acc w :: accumulate_from (Float.add acc w) ws'
  end.

Definition accumulate (ws : list Float.t) : list Float.t :=
  match ws with
  | [] => []
  | w :: ws' => w :: accumulate_from w ws'
  end.

(** The loop of [bisect_right(a, x, lo, hi)]; [fuel] bounds the number of
    iterations, and [hi - lo] of them are enough ([bisect_loop_fuel]). *)
Fixpoint bisect_loop (fuel : nat) (a : list Float.t) (x : Float.t)
    (lo hi : nat) : nat :=
  match fuel with
  | O => lo
  | S fuel' =>
      if (lo <? hi)%nat then
        let mid := ((lo + hi) / 2)%nat in
        if Float.ltb x (nth mid a (Float.Num 0))
        then bisect_loop fuel' a x lo mid
        else bisect_loop fuel' a x (S mid) hi
      else lo
  end.

Definition bisect (a : list Float.t) (x : Float.t) (lo hi : nat) : nat :=
  bisect_loop (hi - lo) a x lo hi.

(** The exact sum of a list of rationals. *)
Definition total (ws : list Q) : Q := fold_right Qplus 0%Q ws.

Section Choices.
Context {St A : Type}.

Definition choices (population : list A) (weights : list Float.t) (u : Q)
  : Py.exn St + A :=
  let n := length population in
  let cum_weights := accumulate weights in
  if negb (length cum_weights =? n)%nat then
    inl (Py.ValueError "The number of weights does not match the population")
  else
    match last cum_weights, population with
    | _, [] => inl Py.IndexError
    | None, _ => inl Py.IndexError
    | Some total, x0 :: _ =>
        if Float.leb total (Float.Num 0) then
          inl (Py.ValueError "Total of weights must be greater than zero")
        else if negb (Float.isfinite total) then
          inl (Py.ValueError "Total of weights must be finite")
        else
          inr (nth (bisect cum_weights (Float.mul (Float.Num u) total) 0 (n - 1))
                   population x0)
    end.
End Choices.

End Random.

Section Sampling.
Context {St : Type}.

(** [len(tasks) - 1] as a number. *)
Definition others (tasks : list string) : Q :=
  inject_Z (Z.of_nat (length tasks) - 1).

(** The [aux] of [sample_task]; a zero [factor] raises
    [ZeroDivisionError]. *)
Definition aux_weight (tasks : list string) (factor : Q)
  : Py.exn St + Float.t :=
  if (1 <? length tasks)%nat then
    if Qeq_bool factor 0 then inl Py.ZeroDivisionError
    else inr (Float.div (Float.div (Float.Num 1) (others tasks)) factor)
  else inr (Float.Num 0).

Definition trg_weight (tasks : list string) (aux : Float.t) : Float.t :=
  Float.sub (Float.Num 1) (Float.mul aux (Float.Num (others tasks))).

(** [task != target]: the target is a name, or [None] when
    [get_batch_task] found none. *)
Definition is_target_name (target : option string) (task : string) : bool :=
  match target with
  | Some t => String.eqb task t
  | None => false
  end.

Definition sample_weights (target : option string) (tasks : list string)
    (aux : Float.t) : list Float.t :=
  let trg := trg_weight tasks aux in
  map (fun task => if is_target_name target task then trg else aux) tasks.

(** [sample_task(target, tasks, factor)]; [u] is the draw of [random()].
    For a factor below 1 the weight of the target is negative, and the
    float sum of the weights can then be zero where the exact sum is 1:
    what is proved about a draw assumes a factor of at least 1, where all
    the weights are between 0 and 1. *)
Definition sample_task (target : option string) (tasks : list string)
    (factor : Q) (u : Q) : Py.exn St + string :=
  match aux_weight tasks factor with
  | inl e => inl e
  | inr aux => Random.choices tasks (sample_weights target tasks aux) u
  end.

(** The loop of [get_batch_task]: names in order, and the name of the
    last task whose [target] is truthy. *)
Fixpoint batch_names (tasks : list Task.t) (tnames : list string)
    (tgt : option string) : list string * option string :=
  match tasks with
  | [] => (tnames, tgt)
  | t :: tasks' =>
      batch_names tasks' (tnames ++ [Task.name t])
        (if truthy (Task.target t) then Some (Task.name t) else tgt)
  end.

Definition get_batch_task (tasks : list Task.t) (factor : Q) (u : Q)
    : Py.exn St + string :=
  let '(tnames, tgt) := batch_names tasks [] None in
  sample_task tgt tnames factor u.

(** [get_target_task(settings)]: the first task whose [target] is
    truthy. *)
Fixpoint first_target (tasks : list Task.t) : option string :=
  match tasks with
  | [] => None
  | t :: tasks' =>
      if truthy (Task.target t) then Some (Task.name t) else first_target tasks'
  end.

Definition get_target_task (settings : Settings.t) : Py.exn St + string :=
  match first_target (Settings.tasks settings) with
  | Some n => inr n
  | None => inl (Py.ValueError "No target task?")
  end.

End Sampling.

(* ===================================================================== *)
(** ** [TaskScheduler]                                                    *)
(* ===================================================================== *)

(** The dict kept for a task in [self.tasks]: the optional overrides of
    the schedule, the optional [target] key (the language-model tasks have
    none), and the four keys [__init__] always sets. *)
Module TData.
Record t : Type := Make {
  patience : option Z;
  threshold : option Q;
  factor : option Q;
  min_weight : option Q;
  target : option bool;
  steps : Z;
  mode : string;
  weight : Q;
  best : Py.num
}.

Definition improved (score : Py.num) (d : t) : t :=
  Make (patience d) (threshold d) (factor d) (min_weight d) (target d)
       0 (mode d) (weight d) score.

Definition stalled (d : t) : t :=
  Make (patience d) (threshold d) (factor d) (min_weight d) (target d)
       (steps d + 1) (mode d) (weight d) (best d).

Definition set_weight (w : Q) (d : t) : t :=
  Make (patience d) (threshold d) (factor d) (min_weight d) (target d)
       (steps d) (mode d) w (best d).

(** The dict after a score was compared: improved or not. *)
Definition scored (better : bool) (score : Py.num) (d : t) : t :=
  if better then improved score d else stalled d.

(** Truth value of [tdata.get('target', False)]. *)
Definition is_target (d : t) : bool := Py.get (target d) false.

(** [d'] has the configuration of [d]: the keys that [step] never
    writes. *)
Definition same_config (d d' : t) : Prop :=
  patience d' = patience d /\ threshold d' = threshold d
  /\ factor d' = factor d /\ min_weight d' = min_weight d
  /\ target d' = target d /\ mode d' = mode d.
End TData.

Module TaskScheduler.
Section WithStateDict.
(** [St] is the type of [model.state_dict()]. *)
Context {St : Type}.

Record t : Type := Make {
  tasks : gmap string TData.t;
  patience : Z;
  factor : Q;
  threshold : Q;
  min_weight : Q;
  fid : option St
}.

Definition set_tasks (ts : gmap string TData.t) (self : t) : t :=
  Make ts (patience self) (factor self) (threshold self) (min_weight self)
       (fid self).

Definition set_fid (f : option St) (self : t) : t :=
  Make (tasks self) (patience self) (factor self) (threshold self)
       (min_weight self) f.

(** First loop of [__init__]: the schedule and the [target] key of each
    task; with [include_lm], every iteration (re)sets the two
    language-model entries to copies of [lm_schedule]. *)
Definition preprocess_task (include_lm : bool) (lm : Schedule.t)
    (acc : gmap string (Schedule.t * option bool)) (task : Task.t)
    : gmap string (Schedule.t * option bool) :=
  let acc1 :=
    <[Task.name task :=
        (Py.get (Task.schedule task) Schedule.empty,
         Some (Py.get (Task.target task) false))]> acc in
  if include_lm
  then <["lm_bwd" := (lm, None)]> (<["lm_fwd" := (lm, None)]> acc1)
  else acc1.

Definition preprocess (settings : Settings.t)
    : gmap string (Schedule.t * option bool) :=
  fold_left
    (preprocess_task (Settings.include_lm settings)
                     (Settings.lm_schedule settings))
    (Settings.tasks settings) ∅.

(** Second loop of [__init__]: step counter, mode, weight and best. *)
Definition init_tdata (pre : Schedule.t * option bool) : TData.t :=
  let '(sch, tgt) := pre in
  let mode := Py.get (Schedule.mode sch) "max" in
  TData.Make (Schedule.patience sch) (Schedule.threshold sch)
             (Schedule.factor sch) (Schedule.min_weight sch) tgt
             0 mode (Py.get (Schedule.weight sch) 1%Q)
             (if String.eqb mode "max" then Py.NegInf else Py.PosInf).

(** [TaskScheduler(settings)]. The temporary file does not exist yet. *)
Definition init (settings : Settings.t) : t :=
  Make (init_tdata <$> preprocess settings)
       (Settings.patience settings) (Settings.factor settings)
       (Settings.threshold settings) (Settings.min_weight settings)
       None.

(** [is_best(task, value)]. *)
Definition is_best (task : string) (value : Py.num) : Py.M St t bool :=
  fun self =>
    match tasks self !! task with
    | None => Py.Raise (Py.KeyError task) self
    | Some td =>
        let threshold := Py.get (TData.threshold td) (threshold self) in
        let mode := TData.mode td in
        if String.eqb (Py.lower mode) "max" then
          Py.Ok (Py.gtb value (Py.add (TData.best td) threshold)) self
        else if String.eqb (Py.lower mode) "min" then
          Py.Ok (Py.ltb value (Py.sub (TData.best td) threshold)) self
        else Py.Raise (Py.ValueError "Wrong mode value") self
    end.

(** The first [if] of the loop body of [step]: record an improvement
    (and, for the target, [torch.save] the model), or count a step. *)
Definition record_score (task : string) (score : Py.num) (model : St)
    (improved : bool) (self : t) : t :=
  match tasks self !! task with
  | None => self
  | Some td =>
      if improved then
        let self1 := set_tasks (<[task := TData.improved score td]> (tasks self)) self in
        if Py.get (TData.target td) false then set_fid (Some model) self1
        else self1
      else set_tasks (<[task := TData.stalled td]> (tasks self)) self
  end.

(** The second [if]: stop on the target ([torch.load], [os.remove],
    raise), or shrink the weight of another task. *)
Definition check_patience (task : string) : Py.M St t unit :=
  fun self =>
    match tasks self !! task with
    | None => Py.Raise (Py.KeyError task) self
    | Some td =>
        let patience := Py.get (TData.patience td) (patience self) in
        if (patience <=? TData.steps td)%Z then
          if Py.get (TData.target td) false then
            match fid self with
            | None => Py.Raise Py.FileNotFoundError self
            | Some state_dict =>
                Py.Raise
                  (Py.EarlyStopException task (TData.best td) state_dict)
                  (set_fid None self)
            end
          else
            let factor := Py.get (TData.factor td) (factor self) in
            let new_weight := (TData.weight td * factor)%Q in
            let min_weight := Py.get (TData.min_weight td) (min_weight self) in
            Py.Ok tt
              (set_tasks
                 (<[task := TData.set_weight (Py.max new_weight min_weight) td]>
                    (tasks self))
                 self)
        else Py.Ok tt self
    end.

(** The loop body of [step] for the item [(task, score)]. *)
Definition step_task (model : St) (item : string * Py.num)
    : Py.M St t unit :=
  let '(task, score) := item in
  fun self =>
    match tasks self !! task with
    | None => Py.Ok tt self
    | Some _ =>
        (do improved <- is_best task score;
         run Py.modify (record_score task score model improved);
         check_patience task) self
    end.

(** [step(scores, model)]: [scores] are the items of the dict, [model]
    the state dict that [model.state_dict()] returns during the call. *)
Definition step (scores : list (string * Py.num)) (model : St)
    : Py.M St t unit :=
  Py.for_each scores (step_task model).

(** [get_weights()]. *)
Definition get_weights (self : t) : gmap string Q :=
  TData.weight <$> tasks self.

(** The comparison [is_best] makes for a task with dict [td] and
    effective threshold [thr]; [None] when the mode is neither max nor
    min (lemma [is_best_improves]). *)
Definition improves (td : TData.t) (thr : Q) (value : Py.num) : option bool :=
  if String.eqb (Py.lower (TData.mode td)) "max" then
    Some (Py.gtb value (Py.add (TData.best td) thr))
  else if String.eqb (Py.lower (TData.mode td)) "min" then
    Some (Py.ltb value (Py.sub (TData.best td) thr))
  else None.

(** [self'] has the global schedule of [self]. *)
Definition same_schedule (self self' : t) : Prop :=
  patience self' = patience self /\ factor self' = factor self
  /\ threshold self' = threshold self /\ min_weight self' = min_weight self.

(** The bounds kept by the weight of a task with effective factor [f]
    and minimal weight [m]: it is at least [m], and it is not negative,
    because [m] is not or because neither [f] nor the weight is. *)
Definition weight_bounds (f m : Q) (td : TData.t) : Prop :=
  (m <= TData.weight td)%Q
  /\ ((0 <= m)%Q \/ ((0 <= f)%Q /\ (0 <= TData.weight td)%Q)).

(** [td] is the dict of task [t] in [self], with effective factor [f]
    and minimal weight [m], and [t] is not the target. *)
Definition auxiliary (self : t) (t : string) (td : TData.t) (f m : Q) : Prop :=
  tasks self !! t = Some td
  /\ TData.is_target td = false
  /\ Py.get (TData.factor td) (factor self) = f
  /\ Py.get (TData.min_weight td) (min_weight self) = m.





(** [steps >= patience] for the dict [td] of a task. *)
Definition exhausted (self : t) (td : TData.t) : bool :=
  (Py.get (TData.patience td) (patience self) <=? TData.steps td)%Z.

(** The weight an exhausted task other than the target gets. *)
Definition shrink (self : t) (td : TData.t) : Q :=
  Py.max (TData.weight td * Py.get (TData.factor td) (factor self))%Q
         (Py.get (TData.min_weight td) (min_weight self)).

(** The state after a list of [step] calls, oldest first, made by a
    caller that goes on after an exception. *)
Definition run_calls (calls : list (list (string * Py.num) * St))
    (self : t) : t :=
  fold_left (fun s c => Py.final (step (fst c) (snd c) s)) calls self.


(** The state after the scores [values] of one task were evaluated, one
    per call, oldest first. *)
Definition evaluations (task : string) (values : list Py.num) (model : St)
    (self : t) : t :=
  fold_left (fun s v => Py.final (step [(task, v)] model s)) values self.

End WithStateDict.

Arguments t : clear implicits.
End TaskScheduler.

(* ===================================================================== *)
(** ** [DelayerScheduler]                                                 *)
(* ===================================================================== *)

(** The wrapped scheduler is any state [B] with a step function; the
    arguments that [step] forwards are [Some loss] for [metrics=loss] and
    [None] for a call without a metric. *)
Module DelayerScheduler.
Section WithBase.
Context {B : Type} (base_step : option Py.num -> B -> B).

Record t : Type := Make {
  nb_steps : Z;
  delay : Z;
  base_scheduler : B
}.

(** The property [steps]. *)
Definition steps (self : t) : Z := nb_steps self.

(** The property [waiting]. *)
Definition waiting (self : t) : bool := (steps self <=? delay self)%Z.

(** [step], with the arguments it forwards. *)
Definition step (args : option Py.num) (self : t) : t :=
  let self1 := Make (nb_steps self + 1) (delay self) (base_scheduler self) in
  if (delay self1 <? steps self1)%Z
  then Make (nb_steps self1) (delay self1)
            (base_step args (base_scheduler self1))
  else self1.

(** [DelayerScheduler(optimizer, delay, base_scheduler)]: the three
    assignments, then the constructor of the base class
    [torch.optim.lr_scheduler._LRScheduler], which performs the initial
    [self.step()] (the reason [nb_steps] starts at [-1]). *)
Definition init (delay : Z) (base_scheduler : B) : t :=
  step None (Make (-1) delay base_scheduler).

(** The state after a list of [step] calls, oldest first. *)
Definition steps_run (calls : list (option Py.num)) (self : t) : t :=
  fold_left (fun s a => step a s) calls self.

(** The base scheduler stepped directly with a list of calls. *)
Definition base_run (calls : list (option Py.num)) (b : B) : B :=
  fold_left (fun b a => base_step a b) calls b.

End WithBase.
Arguments t : clear implicits.
End DelayerScheduler.

(* ===================================================================== *)
(** ** [Trainer]                                                          *)
(* ===================================================================== *)

(** The three schedulers [get_scheduler] knows. *)
Inductive lr_kind : Type :=
| ReduceLROnPlateau
| CosineAnnealingLR
| CosineAnnealingWarmRestarts.

(** [self.check_freq] as [Trainer.__init__] derives it. *)
Definition derive_check_freq (num_batches checks_per_epoch : Z) : Z :=
  if (checks_per_epoch =? 1)%Z then num_batches - 1
  else if (num_batches <? checks_per_epoch)%Z then 1
  else if (1 <? checks_per_epoch)%Z then num_batches / checks_per_epoch
  else 0.

(** [d[k] = v] on the items of a dict: in place when [k] is present, at the
    end otherwise. *)
Fixpoint dict_set {A} (k : string) (v : A) (d : list (string * A))
    : list (string * A) :=
  match d with
  | [] => [(k, v)]
  | (k', v') :: d' =>
      if String.eqb k' k then (k, v) :: d' else (k', v') :: dict_set k v d'
  end.

(** [d.get(k)] on the items of a dict. *)
Fixpoint dict_get {A} (k : string) (d : list (string * A)) : option A :=
  match d with
  | [] => None
  | (k', v) :: d' => if String.eqb k' k then Some v else dict_get k d'
  end.

(** [total_losses[k] += v] on a [defaultdict(float)]. *)
Definition dict_add (k : string) (v : Q) (d : list (string * Q))
    : list (string * Q) :=
  dict_set k (Py.get (dict_get k d) 0 + v)%Q d.

(** The sum of the values under key [k] in a list of items. *)
Definition key_sum (k : string) (items : list (string * Q)) : Q :=
  fold_right (fun kv acc => if String.eqb (fst kv) k then (snd kv + acc)%Q else acc)
             0%Q items.

(** [Trainer.evaluate(dataset)], given for each batch of the dataset the
    items of [self.model.loss(batch, *tasks)] with their [.item()] value:
    the losses are summed per key over the batches, and each sum is
    divided by the number of batches. *)
Definition evaluate_losses (batch_losses : list (list (string * Q)))
    : list (string * Q) :=
  let total_losses :=
    fold_left
      (fun acc items =>
         fold_left (fun acc kv => dict_add (fst kv) (snd kv) acc) items acc)
      batch_losses [] in
  let total_batches := inject_Z (Z.of_nat (length batch_losses)) in
  map (fun kv => (fst kv, (snd kv / total_batches)%Q)) total_losses.

Module Trainer.
Section WithCollaborators.
(** The external collaborators: [Mdl] is the state of the model, of the
    optimizer and of the random generator; [B] the state of the
    learning-rate scheduler of torch. *)
Context {St Mdl B Batch Dev : Type}.
(** [model.tasks.values()] *)
Variable model_tasks : list Task.t.
(** [random.random()] *)
Variable random : Mdl -> Q * Mdl.
(** [model.loss(batch, task)], the items with their [.item()] value *)
Variable model_loss : Mdl -> Batch -> string -> list (string * Q).
(** [zero_grad], [backward] on the weighted loss, optional clipping,
    [optimizer.step] *)
Variable optimize : Q -> option Q -> B -> Mdl -> Mdl.
(** [self.evaluate(devset)] *)
Variable evaluate : Mdl -> Dev -> list (string * Q).
(** [scorer.get_scores()['all']['accuracy']] for each task of
    [model.evaluate(devset, dataset)] *)
Variable accuracies : Mdl -> Dev -> list (string * Q).
Variable state_dict : Mdl -> St.
Variable load_state_dict : St -> Mdl -> Mdl.
(** [hasattr(optim, name) or hasattr(ext_optims, name)]: whether
    [get_optimizer(name)] returns an attribute rather than [None] *)
Variable known_optimizer : string -> bool.
(** the call of that attribute on [model.parameters()] and
    [lr=settings.lr]: the exception it raises, if any (the attribute need
    not be an optimizer class, and a class may refuse its arguments) *)
Variable new_optimizer : Settings.t -> Mdl -> option (Py.exn St).
(** the constructor of the scheduler of torch with the arguments
    [get_scheduler] takes from the settings: the exception it raises, or
    the scheduler *)
Variable base_init : lr_kind -> Settings.t -> Py.exn St + B.
Variable base_step : lr_kind -> option Py.num -> B -> B.

(** A learning-rate scheduler: one of torch, or a delayer around it. *)
Inductive lr : Type :=
| Plain (kind : lr_kind) (b : B)
| Delayed (kind : lr_kind) (d : DelayerScheduler.t B).

Definition lr_base (l : lr) : B :=
  match l with
  | Plain _ b => b
  | Delayed _ d => DelayerScheduler.base_scheduler d
  end.

Record t : Type := Make {
  target_task : string;
  model : Mdl;
  batch_size : Z;
  batches : list Batch;
  clip_norm : Q;
  report_freq : Z;
  num_batches : Z;
  check_freq : Z;
  task_scheduler : TaskScheduler.t St;
  lr_scheduler : lr
}.

Definition set_model (m : Mdl) (self : t) : t :=
  Make (target_task self) m (batch_size self) (batches self)
       (clip_norm self) (report_freq self) (num_batches self)
       (check_freq self) (task_scheduler self) (lr_scheduler self).

Definition set_task_scheduler (ts : TaskScheduler.t St) (self : t) : t :=
  Make (target_task self) (model self) (batch_size self) (batches self)
       (clip_norm self) (report_freq self) (num_batches self)
       (check_freq self) ts (lr_scheduler self).

Definition set_lr_scheduler (l : lr) (self : t) : t :=
  Make (target_task self) (model self) (batch_size self) (batches self)
       (clip_norm self) (report_freq self) (num_batches self)
       (check_freq self) (task_scheduler self) l.

(** The branch of [get_scheduler(settings)]: the class that is
    constructed, or the error of an unknown name. *)
Definition get_scheduler (settings : Settings.t) : Py.exn St + lr_kind :=
  let n := Settings.lr_scheduler settings in
  if String.eqb n "ReduceLROnPlateau" then inr ReduceLROnPlateau
  else if String.eqb n "CosineAnnealingLR" then inr CosineAnnealingLR
  else if String.eqb n "CosineAnnealingWarmRestarts"
       then inr CosineAnnealingWarmRestarts
  else inl (Py.ValueError "Unknown scheduler").

(** [Trainer(settings, model, dataset, num_instances)]; the dataset is
    given by its [batch_size] and the batches of [batch_generator()].
    The statements run in the order of the source: the target task, the
    optimizer ([get_optimizer] returns [None] for an unknown name, and
    calling [None] raises [TypeError]; calling what it found may raise
    too), the number of batches, the check frequency, the task scheduler,
    the scheduler of torch and the delayer around it. The printing under
    [settings.verbose] is left out. *)
Definition init (settings : Settings.t) (mdl : Mdl) (bsize : Z)
    (bs : list Batch) (num_instances : Z) : Py.exn St + t :=
  match get_target_task settings with
  | inl e => inl e
  | inr tgt =>
      if negb (known_optimizer (Settings.optimizer settings))
      then inl Py.TypeError
      else
        match new_optimizer settings mdl with
        | Some e => inl e
        | None =>
            if (bsize =? 0)%Z then inl Py.ZeroDivisionError
            else
              let nb := (num_instances / bsize)%Z in
              let cf :=
                derive_check_freq nb (Settings.checks_per_epoch settings) in
              let ts := TaskScheduler.init settings in
              match get_scheduler settings with
              | inl e => inl e
              | inr kind =>
                  match base_init kind settings with
                  | inl e => inl e
                  | inr base =>
                      let l :=
                        if (0 <? Settings.lr_delayed settings)%Z
                        then Delayed kind
                               (DelayerScheduler.init (base_step kind)
                                  (Settings.lr_delayed settings) base)
                        else Plain kind base in
                      inr (Make tgt mdl bsize bs (Settings.clip_norm settings)
                                (Settings.report_freq settings) nb cf ts l)
                  end
              end
        end
  end.

(** [weight_loss(loss)]: [sum(weights.get(k, 1) * loss[k] for k in loss)]. *)
Definition weight_loss (loss : list (string * Q)) (self : t) : Q :=
  let weights := TaskScheduler.get_weights (task_scheduler self) in
  fold_left
    (fun acc kv => (acc + Py.get (weights !! fst kv) 1%Q * snd kv)%Q)
    loss 0%Q.

(** [step_lr_scheduler(loss)]: the metric goes to the scheduler only
    when the (wrapped) scheduler is [ReduceLROnPlateau]. *)
Definition step_lr_scheduler (loss : Py.num) (self : t) : t :=
  match lr_scheduler self with
  | Plain kind b =>
      let use_loss := match kind with ReduceLROnPlateau => true | _ => false end in
      set_lr_scheduler
        (Plain kind (base_step kind (if use_loss then Some loss else None) b))
        self
  | Delayed kind d =>
      let use_loss := match kind with ReduceLROnPlateau => true | _ => false end in
      set_lr_scheduler
        (Delayed kind
           (DelayerScheduler.step (base_step kind)
              (if use_loss then Some loss else None) d))
        self
  end.

(** [self.task_scheduler.step(dev_scores, self.model)] as a method of
    the trainer. *)
Definition task_scheduler_step (dev_scores : list (string * Py.num))
    : Py.M St t unit :=
  fun self =>
    match TaskScheduler.step dev_scores (state_dict (model self))
            (task_scheduler self) with
    | Py.Ok a ts => Py.Ok a (set_task_scheduler ts self)
    | Py.Raise e ts => Py.Raise e (set_task_scheduler ts self)
    end.

(** The dev scores of [run_check]: the accuracies, then the losses of
    the two language-model tasks when one of them has a loss. *)
Definition dev_scores_of (mdl : Mdl) (devset : Dev)
    : Py.exn St + list (string * Py.num) :=
  let dev_loss := evaluate mdl devset in
  let dev_scores :=
    fold_left (fun acc kv => dict_set (fst kv) (Py.Fin (snd kv)) acc)
              (accuracies mdl devset) [] in
  match dict_get "lm_fwd" dev_loss, dict_get "lm_bwd" dev_loss with
  | None, None => inr dev_scores
  | Some f, Some b =>
      inr (dict_set "lm_bwd" (Py.Fin b) (dict_set "lm_fwd" (Py.Fin f) dev_scores))
  | None, Some _ => inl (Py.KeyError "lm_fwd")
  | Some _, None => inl (Py.KeyError "lm_bwd")
  end.

(** [run_check(devset)]. *)
Definition run_check (devset : Dev) : Py.M St t (list (string * Py.num)) :=
  fun self =>
    match dev_scores_of (model self) devset with
    | inl e => Py.Raise e self
    | inr dev_scores =>
        (run task_scheduler_step dev_scores;
         fun self1 =>
           match dict_get (target_task self1) dev_scores with
           | None => Py.Raise (Py.KeyError (target_task self1)) self1
           | Some loss => Py.Ok dev_scores (step_lr_scheduler loss self1)
           end) self
    end.

(** The body of the loop of [train_epoch] for batch number [b]; the
    result is the new value of the local variable [scores]. Reporting
    only logs, but its [b % self.report_freq] can divide by zero. *)
Definition train_batch (devset : option Dev) (b : Z) (batch : Batch)
    (scores : option (list (string * Py.num)))
    : Py.M St t (option (list (string * Py.num))) :=
  fun self =>
    let '(u, mdl1) := random (model self) in
    match get_batch_task model_tasks 2 u with
    | inl e => Py.Raise e (set_model mdl1 self)
    | inr task =>
        let loss := model_loss mdl1 batch task in
        match loss with
        | [] => Py.Raise (Py.ValueError "Got empty loss, no tasks defined?")
                  (set_model mdl1 self)
        | _ :: _ =>
            let clip :=
              if Py.Qltb 0 (clip_norm self) then Some (clip_norm self) else None in
            let self1 :=
              set_model
                (optimize (weight_loss loss self) clip
                   (lr_base (lr_scheduler self)) mdl1)
                self in
            if (0 <? b)%Z && (report_freq self1 =? 0)%Z
            then Py.Raise Py.ZeroDivisionError self1
            else if (0 <? check_freq self1)%Z && (0 <? b)%Z
                    && (b mod check_freq self1 =? 0)%Z
            then match devset with
                 | Some dev =>
                     (do dev_scores <- run_check dev;
                      Py.ret (Some dev_scores)) self1
                 | None => Py.Ok scores self1
                 end
            else Py.Ok scores self1
        end
    end.

(** [for b, batch in enumerate(...)] of [train_epoch]. *)
Fixpoint train_batches (devset : option Dev) (b : Z) (bs : list Batch)
    (scores : option (list (string * Py.num)))
    : Py.M St t (option (list (string * Py.num))) :=
  match bs with
  | [] => Py.ret scores
  | batch :: bs' =>
      do scores' <- train_batch devset b batch scores;
      train_batches devset (b + 1) bs' scores'
  end.

(** [train_epoch(devset, epoch)]: the scores of the last check of the
    epoch, or [None]. *)
Definition train_epoch (devset : option Dev) (epoch : Z)
    : Py.M St t (option (list (string * Py.num))) :=
  fun self => train_batches devset 0 (batches self) None self.

(** The [for epoch in range(1, epochs + 1)] of [train_epochs]; the
    value [train_epoch] returns is not bound. *)
Fixpoint epochs_loop (devset : option Dev) (epoch : Z) (todo : nat)
    : Py.M St t unit :=
  match todo with
  | O => Py.ret tt
  | S todo' =>
      run train_epoch devset epoch;
      epochs_loop devset (epoch + 1) todo'
  end.

(** [train_epochs(epochs, devset)]: the [try] around the loop, the
    handler of [EarlyStopException], and [return scores]. *)
Definition train_epochs (epochs : Z) (devset : option Dev)
    : Py.M St t (option (list (string * Py.num))) :=
  fun self =>
    match epochs_loop devset 1 (Z.to_nat epochs) self with
    | Py.Ok _ self1 => Py.Ok None self1
    | Py.Raise (Py.EarlyStopException task loss best_state_dict) self1 =>
        Py.Ok (Some [(task, loss)])
              (set_model (load_state_dict best_state_dict (model self1)) self1)
    | Py.Raise e self1 => Py.Raise e self1
    end.

End WithCollaborators.

Arguments t : clear implicits.
Arguments lr : clear implicits.
End Trainer.

(* ===================================================================== *)
(** ** Concrete configurations                                            *)
(* ===================================================================== *)

Module Demo.

(** A target task [pos] on the global schedule and an auxiliary task
    [lemma] with a schedule of its own; patience 2, factor 1/2,
    threshold 0, minimal weight 1/10. *)
Definition tasks : list Task.t :=
  [ Task.Make "pos" (Some true) None;
    Task.Make "lemma" None
      (Some (Schedule.Make (Some 2) None (Some (1 # 2)) None None None)) ].

Definition settings : Settings.t :=
  Settings.Make tasks false Schedule.empty 2 (1 # 2) 0 (1 # 10)
                "Adam" "ReduceLROnPlateau" 0 1 10 0.

(** The scheduler of [settings]; state dicts are numbers. *)
Definition scheduler : TaskScheduler.t nat := TaskScheduler.init settings.

(** The dict of [pos] in [scheduler]. *)
Definition pos_data : TData.t :=
  TData.Make None None None None (Some true) 0 "max" 1 Py.NegInf.

(** The dict of [lemma] in [scheduler]. *)
Definition lemma_data : TData.t :=
  TData.Make (Some 2) None (Some (1 # 2)) None (Some false) 0 "max" 1 Py.NegInf.

(** The same tasks with a mode that is neither max nor min on the
    target. *)
Definition settings_median : Settings.t :=
  Settings.Make
    [ Task.Make "pos" (Some true)
        (Some (Schedule.Make None None None None (Some "median") None)) ]
    false Schedule.empty 2 (1 # 2) 0 (1 # 10)
    "Adam" "ReduceLROnPlateau" 0 1 10 0.

(** An auxiliary task with patience 1, a negative factor and a negative
    minimal weight. *)
Definition settings_negative : Settings.t :=
  Settings.Make
    [ Task.Make "pos" (Some true) None;
      Task.Make "lemma" None
        (Some (Schedule.Make (Some 1) None (Some (-1)%Q) (Some (-5)%Q) None None)) ]
    false Schedule.empty 2 (1 # 2) 0 (1 # 10)
    "Adam" "ReduceLROnPlateau" 0 1 10 0.

(** The call [step({'lemma': 0.5}, model)]. *)
Definition lemma_call : list (string * Py.num) * nat :=
  ([("lemma", Py.Fin (1 # 2))], 0%nat).

(** The call [step({'pos': 0.5}, model)]. *)
Definition pos_call : list (string * Py.num) * nat :=
  ([("pos", Py.Fin (1 # 2))], 0%nat).

(** Two target tasks. *)
Definition settings_two_targets : Settings.t :=
  Settings.Make
    [ Task.Make "pos" (Some true) None; Task.Make "lemma" (Some true) None ]
    false Schedule.empty 2 (1 # 2) 0 (1 # 10)
    "Adam" "ReduceLROnPlateau" 0 1 10 0.

(** [optim.lr_scheduler] is an attribute of [optim], but a module and
    not an optimizer class. *)
Definition settings_module : Settings.t :=
  Settings.Make tasks false Schedule.empty 2 (1 # 2) 0 (1 # 10)
                "lr_scheduler" "ReduceLROnPlateau" 0 1 10 0.

(** Collaborators of a trainer: the model state counts the optimizer
    steps, the accuracy of [pos] on the dev set grows with it, the state
    dict is the counter, and the base scheduler counts its steps. The
    names [Adam] and [lr_scheduler] are attributes of [optim]; calling the
    second raises [TypeError]. *)
Definition random (m : nat) : Q * nat := (1 # 2, m).
Definition model_loss (m : nat) (batch : unit) (task : string)
  : list (string * Q) := [(task, 1%Q)].
Definition optimize (loss : Q) (clip : option Q) (b : Z) (m : nat) : nat := S m.
Definition evaluate (m : nat) (dev : unit) : list (string * Q) := [].
Definition accuracies (m : nat) (dev : unit) : list (string * Q) :=
  [("pos", inject_Z (Z.of_nat m) / 100)%Q].
Definition state_dict (m : nat) : nat := m.
Definition load_state_dict (sd : nat) (m : nat) : nat := sd.
Definition known_optimizer (n : string) : bool :=
  String.eqb n "Adam" || String.eqb n "lr_scheduler".
Definition new_optimizer (settings : Settings.t) (m : nat)
  : option (Py.exn nat) :=
  if String.eqb (Settings.optimizer settings) "Adam" then None
  else Some Py.TypeError.
Definition base_init (k : lr_kind) (settings : Settings.t)
  : Py.exn nat + Z := inr 0.
Definition base_step (k : lr_kind) (a : option Py.num) (b : Z) : Z := b + 1.

(** [Trainer(settings, model, dataset, 3)] on a dataset of three batches
    of one instance. *)
Definition new_trainer (settings : Settings.t)
  : Py.exn nat + Trainer.t nat nat Z unit :=
  Trainer.init known_optimizer new_optimizer base_init base_step settings
    0%nat 1 [tt; tt; tt] 3.

Definition train_epoch (devset : option unit) (epoch : Z)
  : Py.M nat (Trainer.t nat nat Z unit) (option (list (string * Py.num))) :=
  Trainer.train_epoch tasks random model_loss optimize evaluate accuracies
    state_dict base_step devset epoch.

Definition train_epochs (epochs : Z) (devset : option unit)
  : Py.M nat (Trainer.t nat nat Z unit) (option (list (string * Py.num))) :=
  Trainer.train_epochs tasks random model_loss optimize evaluate accuracies
    state_dict load_state_dict base_step epochs devset.

(** The trainer that [new_trainer settings] returns. *)
Definition trainer : Trainer.t nat nat Z unit :=
  Trainer.Make "pos" 0%nat 1 [tt; tt; tt] 0 10 3 2 (TaskScheduler.init settings)
               (Trainer.Plain ReduceLROnPlateau 0).

(** The settings with the two language-model tasks, to be minimised. *)
Definition settings_lm : Settings.t :=
  Settings.Make tasks true
    (Schedule.Make None None None None (Some "min") None)
    2 (1 # 2) 0 (1 # 10) "Adam" "ReduceLROnPlateau" 0 1 10 0.

(** [scheduler] after two evaluations of the score 0.5 for [lemma], and
    the dict of [lemma] in it: one step without improvement. *)
Definition stuck : TaskScheduler.t nat :=
  TaskScheduler.evaluations "lemma" [Py.Fin (1 # 2); Py.Fin (1 # 2)] 0%nat scheduler.

Definition lemma_stuck : TData.t :=
  TData.Make (Some 2) None (Some (1 # 2)) None (Some false) 1 "max" 1
             (Py.Fin (1 # 2)).

(** [scheduler] after two calls with the score 0.5 for [pos]. *)
Definition before_stop : TaskScheduler.t nat :=
  TaskScheduler.run_calls [pos_call; pos_call] scheduler.

End Demo.

(* ===================================================================== *)
(** * Properties                                                          *)
(* ===================================================================== *)

(** ** Numbers *)

Section NumFacts.

Lemma Qltb_lt (x y : Q) : Py.Qltb x y = true <-> (x < y)%Q.
Proof.
  unfold Py.Qltb. rewrite negb_true_iff.
  destruct (Qle_bool y x) eqn:E.
  - apply Qle_bool_iff in E. split; [discriminate | intros H; lra].
  - split; [intros _ | reflexivity].
    destruct (Qlt_le_dec x y) as [H | H]; [exact H |].
    apply Qle_bool_iff in H. congruence.
Qed.

Lemma Qltb_ge (x y : Q) : Py.Qltb x y = false <-> (y <= x)%Q.
Proof.
  unfold Py.Qltb. rewrite negb_false_iff. apply Qle_bool_iff.
Qed.

Lemma max_ge_r (a b : Q) : (b <= Py.max a b)%Q.
Proof.
  unfold Py.max. destruct (Py.Qltb a b) eqn:E.
  - lra.
  - apply Qltb_ge in E. exact E.
Qed.

Lemma max_ge_l (a b : Q) : (a <= Py.max a b)%Q.
Proof.
  unfold Py.max. destruct (Py.Qltb a b) eqn:E.
  - apply Qltb_lt in E. lra.
  - lra.
Qed.

Lemma max_le (a b c : Q) : (a <= c)%Q -> (b <= c)%Q -> (Py.max a b <= c)%Q.
Proof. unfold Py.max. destruct (Py.Qltb a b); auto. Qed.

Lemma ltb_lt (x y : Py.num) : Py.ltb x y = true <-> Py.lt x y.
Proof.
  destruct x, y; cbn; try apply Qltb_lt; split; try discriminate; tauto.
Qed.

End NumFacts.

(** ** The delay wrapper *)

Section DelayerFacts.
Context {B : Type} (base_step : option Py.num -> B -> B).

Lemma delayer_init (d : nat) (b0 : B) :
  DelayerScheduler.init base_step (Z.of_nat d) b0
  = DelayerScheduler.Make 0 (Z.of_nat d) b0.
Proof.
  unfold DelayerScheduler.init, DelayerScheduler.step. cbn.
  change (-1 + 1)%Z with 0%Z.
  destruct (Z.ltb_spec (Z.of_nat d) 0); [lia | reflexivity].
Qed.

Lemma delayer_step (d n : nat) (a : option Py.num) (b : B) :
  DelayerScheduler.step base_step a
    (DelayerScheduler.Make (Z.of_nat n) (Z.of_nat d) b)
  = DelayerScheduler.Make (Z.of_nat (S n)) (Z.of_nat d)
      (if (d <=? n)%nat then base_step a b else b).
Proof.
  unfold DelayerScheduler.step, DelayerScheduler.steps. cbn.
  replace (Z.of_nat n + 1)%Z with (Z.of_nat (S n)) by lia.
  destruct (Z.ltb_spec (Z.of_nat d) (Z.of_nat (S n)));
    destruct (Nat.leb_spec d n); try lia; reflexivity.
Qed.

Lemma delayer_steps_run (d : nat) (calls : list (option Py.num)) :
  forall (n : nat) (b : B),
    DelayerScheduler.steps_run base_step calls
      (DelayerScheduler.Make (Z.of_nat n) (Z.of_nat d) b)
    = DelayerScheduler.Make
        (Z.of_nat (n + length calls)) (Z.of_nat d)
        (DelayerScheduler.base_run base_step (skipn (d - n) calls) b).
Proof.
  induction calls as [| a calls IH]; intros n b.
  - cbn. rewrite Nat.add_0_r. now rewrite skipn_nil.
  - change (DelayerScheduler.steps_run base_step (a :: calls) ?s)
      with (DelayerScheduler.steps_run base_step calls
              (DelayerScheduler.step base_step a s)).
    rewrite delayer_step, IH.
    replace (n + length (a :: calls))%nat with (S n + length calls)%nat
      by (cbn; lia).
    f_equal.
    destruct (Nat.leb_spec d n) as [Hle | Hgt].
    + replace (d - n)%nat with 0%nat by lia.
      replace (d - S n)%nat with 0%nat by lia. reflexivity.
    + replace (d - n)%nat with (S (d - S n)) by lia. reflexivity.
Qed.

(** C6. A delayer built with delay [d], after any list [calls] of [step]
    invocations: the base schedule has received exactly the invocations
    after the [d]-th, in order and with their arguments (so none of the
    first [d], and every later one); [waiting] is true exactly as long as
    at most [d] invocations were made, that is, as long as none was
    forwarded. *)
Theorem delayer_forwards_after_delay (d : nat) (b0 : B)
    (calls : list (option Py.num)) :
  let s := DelayerScheduler.steps_run base_step calls
             (DelayerScheduler.init base_step (Z.of_nat d) b0) in
  DelayerScheduler.base_scheduler s
    = DelayerScheduler.base_run base_step (skipn d calls) b0
  /\ DelayerScheduler.waiting s = (length calls <=? d)%nat
  /\ DelayerScheduler.steps s = Z.of_nat (length calls).
Proof.
  intros s. subst s. rewrite delayer_init.
  change 0%Z with (Z.of_nat 0). rewrite delayer_steps_run.
  rewrite Nat.sub_0_r. cbn. repeat split.
  unfold DelayerScheduler.waiting, DelayerScheduler.steps. cbn.
  destruct (Nat.leb_spec (length calls) d);
    [apply Z.leb_le | apply Z.leb_gt]; lia.
Qed.

End DelayerFacts.

(** ** Task sampling *)

Section FloatFacts.










End FloatFacts.

Section SamplingFacts.
Context {St : Type}.


(** [hi - lo] iterations are enough: more fuel does not change the
    result of the binary search. *)
Lemma bisect_loop_fuel (a : list Float.t) (x : Float.t) (fuel : nat) :
  forall (fuel' lo hi : nat),
    (hi - lo <= fuel)%nat -> (hi - lo <= fuel')%nat ->
    Random.bisect_loop fuel a x lo hi = Random.bisect_loop fuel' a x lo hi.
Proof.
  induction fuel as [| fuel IH]; intros fuel' lo hi H H'.
  - destruct fuel' as [| fuel']; cbn [Random.bisect_loop]; [reflexivity |].
    destruct (Nat.ltb_spec lo hi); [lia | reflexivity].
  - destruct fuel' as [| fuel']; cbn [Random.bisect_loop].
    + destruct (Nat.ltb_spec lo hi); [lia | reflexivity].
    + destruct (Nat.ltb_spec lo hi) as [Hlt | Hge]; [| reflexivity].
      assert (lo <= (lo + hi) / 2 < hi)%nat as [Hlo Hhi].
      { pose proof (Nat.div_mod_eq (lo + hi) 2) as Hdm.
        pose proof (Nat.mod_upper_bound (lo + hi) 2) as Hm. lia. }
      destruct (Float.ltb x (nth ((lo + hi) / 2) a (Float.Num 0)));
        apply IH; lia.
Qed.



Lemma total_cons (w : Q) (ws : list Q) :
  Random.total (w :: ws) = (w + Random.total ws)%Q.
Proof. reflexivity. Qed.













End SamplingFacts.

Section SamplingRange.
Context {St : Type}.





End SamplingRange.

(** ** The task scheduler *)

Section SchedulerFacts.
Context {St : Type}.
Implicit Types (self : TaskScheduler.t St) (td : TData.t).

Lemma is_best_improves task value self td :
  TaskScheduler.tasks self !! task = Some td ->
  TaskScheduler.is_best task value self
  = match TaskScheduler.improves td
            (Py.get (TData.threshold td) (TaskScheduler.threshold self)) value with
    | Some b => Py.Ok b self
    | None => Py.Raise (Py.ValueError "Wrong mode value") self
    end.
Proof.
  intros H. unfold TaskScheduler.is_best, TaskScheduler.improves. rewrite H.
  destruct (String.eqb (Py.lower (TData.mode td)) "max"); [reflexivity |].
  destruct (String.eqb (Py.lower (TData.mode td)) "min"); reflexivity.
Qed.

Lemma step_task_untracked model task score self :
  TaskScheduler.tasks self !! task = None ->
  TaskScheduler.step_task model (task, score) self = Py.Ok tt self.
Proof. intros H. unfold TaskScheduler.step_task. now rewrite H. Qed.

Lemma step_task_wrong_mode model task score self td :
  TaskScheduler.tasks self !! task = Some td ->
  TaskScheduler.improves td
    (Py.get (TData.threshold td) (TaskScheduler.threshold self)) score = None ->
  TaskScheduler.step_task model (task, score) self
  = Py.Raise (Py.ValueError "Wrong mode value") self.
Proof.
  intros H Hi. unfold TaskScheduler.step_task, Py.bind. rewrite H.
  rewrite (is_best_improves _ _ _ _ H), Hi. reflexivity.
Qed.

(** The loop body of [step] on a tracked task, case by case. *)
Lemma step_task_tracked model task score self td b :
  TaskScheduler.tasks self !! task = Some td ->
  TaskScheduler.improves td
    (Py.get (TData.threshold td) (TaskScheduler.threshold self)) score = Some b ->
  let td1 := TData.scored b score td in
  let self1 :=
    TaskScheduler.Make (<[task := td1]> (TaskScheduler.tasks self))
      (TaskScheduler.patience self) (TaskScheduler.factor self)
      (TaskScheduler.threshold self) (TaskScheduler.min_weight self)
      (if b && TData.is_target td then Some model else TaskScheduler.fid self) in
  TaskScheduler.step_task model (task, score) self
  = if TaskScheduler.exhausted self td1 then
      if TData.is_target td then
        match TaskScheduler.fid self1 with
        | None => Py.Raise Py.FileNotFoundError self1
        | Some sd =>
            Py.Raise (Py.EarlyStopException task (TData.best td1) sd)
                     (TaskScheduler.set_fid None self1)
        end
      else
        Py.Ok tt
          (TaskScheduler.set_tasks
             (<[task := TData.set_weight (TaskScheduler.shrink self td1) td1]>
                (TaskScheduler.tasks self1))
             self1)
    else Py.Ok tt self1.
Proof.
  intros H Hi td1 self1.
  unfold TaskScheduler.step_task, Py.bind. rewrite H.
  rewrite (is_best_improves _ _ _ _ H), Hi.
  unfold Py.modify, TaskScheduler.record_score. rewrite H.
  assert (Hself1 :
      (if b
       then
         if Py.get (TData.target td) false
         then TaskScheduler.set_fid (Some model)
                (TaskScheduler.set_tasks
                   (<[task := TData.improved score td]> (TaskScheduler.tasks self)) self)
         else TaskScheduler.set_tasks
                (<[task := TData.improved score td]> (TaskScheduler.tasks self)) self
       else TaskScheduler.set_tasks
              (<[task := TData.stalled td]> (TaskScheduler.tasks self)) self)
      = self1).
  { subst self1 td1. unfold TData.scored, TData.is_target.
    destruct b, (Py.get (TData.target td) false); reflexivity. }
  rewrite Hself1.
  unfold TaskScheduler.check_patience.
  assert (Hl : TaskScheduler.tasks self1 !! task = Some td1)
    by (subst self1; cbn; apply lookup_insert_eq).
  rewrite Hl.
  assert (Ht : Py.get (TData.target td1) false = TData.is_target td)
    by (subst td1; unfold TData.scored; destruct b; reflexivity).
  rewrite Ht. reflexivity.
Qed.

Lemma step_single model item self :
  TaskScheduler.step [item] model self = TaskScheduler.step_task model item self.
Proof.
  unfold TaskScheduler.step. cbn. unfold Py.bind, Py.ret.
  destruct (TaskScheduler.step_task model item self) as [[] s | e s]; reflexivity.
Qed.

(** C3 (amended). For a tracked task, [is_best(task, value)] answers
    [value > best + threshold] when the mode, in lower case, is max (so a
    value equal to [best + threshold] is not an improvement), answers
    [value < best - threshold] when it is min, and raises the
    configuration error (a [ValueError]) for any other mode; it never
    changes the scheduler. The mode is checked here, when a score is
    compared, and not by the constructor. *)
Theorem is_best_contract self task td value :
  TaskScheduler.tasks self !! task = Some td ->
  let thr := Py.get (TData.threshold td) (TaskScheduler.threshold self) in
  let mode := Py.lower (TData.mode td) in
  (mode = "max" ->
     exists b, TaskScheduler.is_best task value self = Py.Ok b self
               /\ (b = true <-> Py.lt (Py.add (TData.best td) thr) value))
  /\ (mode = "max" ->
      forall v b0, value = Py.Fin v -> TData.best td = Py.Fin b0 ->
                   (v == b0 + thr)%Q ->
                   TaskScheduler.is_best task value self = Py.Ok false self)
  /\ (mode = "min" ->
      exists b, TaskScheduler.is_best task value self = Py.Ok b self
                /\ (b = true <-> Py.lt value (Py.sub (TData.best td) thr)))
  /\ (mode <> "max" -> mode <> "min" ->
      TaskScheduler.is_best task value self
      = Py.Raise (Py.ValueError "Wrong mode value") self).
Proof.
  intros H thr mode. rewrite (is_best_improves _ _ _ _ H).
  unfold TaskScheduler.improves. fold thr mode.
  repeat split.
  - intros ->. cbn. eexists. split; [reflexivity |]. apply ltb_lt.
  - intros -> v b0 -> Hb Hv. cbn. rewrite Hb. cbn. do 2 f_equal.
    apply Qltb_ge. lra.
  - intros ->. cbn. eexists. split; [reflexivity |]. apply ltb_lt.
  - intros Hmax Hmin.
    destruct (String.eqb_spec mode "max"); [contradiction |].
    destruct (String.eqb_spec mode "min"); [contradiction | reflexivity].
Qed.

(** C1. On a scheduler whose target task has patience 2, mode max,
    threshold 0 and the initial best [-inf], three successive [step]
    calls with the score 0.5 for that task: the first records an
    improvement (counter 0, best 0.5, snapshot of the first model saved),
    the second counts one step without improvement, and the third raises
    [EarlyStopException] with the task, the best 0.5 and the snapshot of
    the first call; raising removes the snapshot from the scheduler. *)
Theorem early_stop_on_third_call self task td (m1 m2 m3 : St) :
  TaskScheduler.tasks self !! task = Some td ->
  TData.is_target td = true ->
  Py.get (TData.patience td) (TaskScheduler.patience self) = 2 ->
  Py.lower (TData.mode td) = "max" ->
  (Py.get (TData.threshold td) (TaskScheduler.threshold self) == 0)%Q ->
  TData.best td = Py.NegInf ->
  exists s1 s2 s3 td1 td2,
    TaskScheduler.step [(task, Py.Fin (1 # 2))] m1 self = Py.Ok tt s1
    /\ TaskScheduler.tasks s1 !! task = Some td1
    /\ TData.steps td1 = 0 /\ TData.best td1 = Py.Fin (1 # 2)
    /\ TaskScheduler.fid s1 = Some m1
    /\ TaskScheduler.step [(task, Py.Fin (1 # 2))] m2 s1 = Py.Ok tt s2
    /\ TaskScheduler.tasks s2 !! task = Some td2
    /\ TData.steps td2 = 1 /\ TData.best td2 = Py.Fin (1 # 2)
    /\ TaskScheduler.fid s2 = Some m1
    /\ TaskScheduler.step [(task, Py.Fin (1 # 2))] m3 s2
       = Py.Raise (Py.EarlyStopException task (Py.Fin (1 # 2)) m1) s3
    /\ TaskScheduler.fid s3 = None.
Proof.
  intros H Htgt Hpat Hmode Hthr Hbest.
  set (half := Py.Fin (1 # 2)).
  set (thr := Py.get (TData.threshold td) (TaskScheduler.threshold self)) in *.
  set (td1 := TData.improved half td).
  set (td2 := TData.stalled td1).
  set (td3 := TData.stalled td2).
  set (mk := fun ts (f : option St) =>
               TaskScheduler.Make ts
                 (TaskScheduler.patience self) (TaskScheduler.factor self)
                 (TaskScheduler.threshold self) (TaskScheduler.min_weight self) f).
  set (s1 := mk (<[task := td1]> (TaskScheduler.tasks self)) (Some m1)).
  set (s2 := mk (<[task := td2]> (TaskScheduler.tasks s1)) (Some m1)).
  set (s3 := mk (<[task := td3]> (TaskScheduler.tasks s2)) None).
  assert (H1 : TaskScheduler.tasks s1 !! task = Some td1)
    by apply lookup_insert_eq.
  assert (H2 : TaskScheduler.tasks s2 !! task = Some td2)
    by apply lookup_insert_eq.
  (* first call: an improvement *)
  assert (Hi1 : TaskScheduler.improves td thr half = Some true).
  { unfold TaskScheduler.improves. rewrite Hmode, Hbest. reflexivity. }
  (* second and third call: 0.5 is not above 0.5 + threshold *)
  assert (Hi2 : TaskScheduler.improves td1 thr half = Some false).
  { unfold TaskScheduler.improves. cbn. rewrite Hmode. cbn. f_equal.
    apply Qltb_ge. lra. }
  assert (Hi3 : TaskScheduler.improves td2 thr half = Some false).
  { unfold TaskScheduler.improves. cbn. rewrite Hmode. cbn. f_equal.
    apply Qltb_ge. lra. }
  exists s1, s2, s3, td1, td2.
  rewrite !step_single.
  rewrite (step_task_tracked m1 task half self td true H Hi1).
  rewrite (step_task_tracked m2 task half s1 td1 false H1 Hi2).
  rewrite (step_task_tracked m3 task half s2 td2 false H2 Hi3).
  unfold TaskScheduler.exhausted. cbn.
  change (TData.is_target td1) with (TData.is_target td).
  change (TData.is_target td2) with (TData.is_target td).
  rewrite Hpat, Htgt. cbn.
  repeat split; try reflexivity; assumption.
Qed.

Lemma same_config_refl td : TData.same_config td td.
Proof. repeat split. Qed.

Lemma same_config_trans td1 td2 td3 :
  TData.same_config td1 td2 -> TData.same_config td2 td3 ->
  TData.same_config td1 td3.
Proof.
  unfold TData.same_config. intros (?&?&?&?&?&?) (?&?&?&?&?&?).
  repeat split; congruence.
Qed.

Lemma same_config_scored b score td :
  TData.same_config td (TData.scored b score td).
Proof. destruct b; repeat split. Qed.

Lemma same_schedule_refl self : TaskScheduler.same_schedule self self.
Proof. repeat split. Qed.

Lemma same_schedule_trans (s1 s2 s3 : TaskScheduler.t St) :
  TaskScheduler.same_schedule s1 s2 -> TaskScheduler.same_schedule s2 s3 ->
  TaskScheduler.same_schedule s1 s3.
Proof.
  unfold TaskScheduler.same_schedule. intros (?&?&?&?) (?&?&?&?).
  repeat split; congruence.
Qed.

(** What one run of the loop body of [step] does to the dict of any
    tracked task [t], whatever the outcome: the configuration stays, and
    the weight stays or, on a task that is not the target, becomes
    [max(weight * factor, min_weight)]. *)
Lemma step_task_effect model item self t td :
  TaskScheduler.tasks self !! t = Some td ->
  let s' := Py.final (TaskScheduler.step_task model item self) in
  TaskScheduler.same_schedule self s'
  /\ exists td',
      TaskScheduler.tasks s' !! t = Some td'
      /\ TData.same_config td td'
      /\ (TData.weight td' = TData.weight td
          \/ (TData.is_target td = false
              /\ TData.weight td'
                 = Py.max (TData.weight td
                           * Py.get (TData.factor td) (TaskScheduler.factor self))%Q
                          (Py.get (TData.min_weight td)
                                  (TaskScheduler.min_weight self)))).
Proof.
  intros H s'. subst s'. destruct item as [task score].
  destruct (TaskScheduler.tasks self !! task) as [tdk |] eqn:Hk.
  2:{ rewrite (step_task_untracked _ _ _ _ Hk). cbn.
      split; [apply same_schedule_refl |].
      exists td. auto using same_config_refl. }
  destruct (TaskScheduler.improves tdk
              (Py.get (TData.threshold tdk) (TaskScheduler.threshold self)) score)
    as [b |] eqn:Hi.
  2:{ rewrite (step_task_wrong_mode _ _ _ _ _ Hk Hi). cbn.
      split; [apply same_schedule_refl |].
      exists td. auto using same_config_refl. }
  rewrite (step_task_tracked _ _ _ _ _ _ Hk Hi). cbn zeta.
  pose proof (same_config_scored b score tdk) as Hsc.
  assert (Hw : TData.weight (TData.scored b score tdk) = TData.weight tdk)
    by (destruct b; reflexivity).
  destruct (TaskScheduler.exhausted self (TData.scored b score tdk));
    [destruct (TData.is_target tdk) eqn:Htg;
     [cbn [TaskScheduler.fid];
      destruct (if b && true then Some model else TaskScheduler.fid self) |] |];
    cbn; (split; [repeat split |]);
    (destruct (decide (t = task)) as [-> | Hne];
     [ rewrite ?lookup_insert_eq; rewrite H in Hk; injection Hk as <-;
       eexists; split; [reflexivity |]; split;
       [first [exact Hsc | destruct b; repeat split] |]
     | rewrite ?lookup_insert_ne by congruence;
       exists td; split; [exact H |]; split; [apply same_config_refl | now left] ]).
  - now left.
  - now left.
  - right. split; [exact Htg |]. unfold TaskScheduler.shrink.
    destruct b; reflexivity.
  - now left.
Qed.

Lemma shrink_bounds (f m w : Q) :
  (f <= 1)%Q -> (m <= w)%Q -> ((0 <= m)%Q \/ ((0 <= f)%Q /\ (0 <= w)%Q)) ->
  (Py.max (w * f) m <= w)%Q /\ (m <= Py.max (w * f) m)%Q
  /\ ((0 <= m)%Q \/ ((0 <= f)%Q /\ (0 <= Py.max (w * f) m)%Q)).
Proof.
  intros Hf Hm Hpos.
  assert (Hw : (0 <= w)%Q) by (destruct Hpos as [? | [_ ?]]; lra).
  assert (Hwf : (w * f <= w)%Q) by nra.
  split; [apply max_le; assumption |].
  split; [apply max_ge_r |].
  destruct Hpos as [? | [Hf0 _]]; [now left | right].
  split; [exact Hf0 |].
  pose proof (max_ge_l (w * f) m). assert (0 <= w * f)%Q by nra. lra.
Qed.

(** One run of the loop body keeps an auxiliary task auxiliary, within
    its bounds, and does not raise its weight. *)
Lemma step_task_weight model item self t td f m :
  TaskScheduler.auxiliary self t td f m ->
  (f <= 1)%Q -> TaskScheduler.weight_bounds f m td ->
  exists td',
    TaskScheduler.auxiliary
      (Py.final (TaskScheduler.step_task model item self)) t td' f m
    /\ TaskScheduler.weight_bounds f m td'
    /\ (TData.weight td' <= TData.weight td)%Q.
Proof.
  intros (H & Htg & Hf & Hm) Hle [Hlow Hpos].
  destruct (step_task_effect model item self t td H)
    as ((Hp & Hfa & Hth & Hmw) & td' & H' & Hcfg & Hw).
  pose proof Hcfg as (_ & _ & Hcf & Hcm & Hct & _).
  exists td'. split.
  - repeat split; [exact H' | | |].
    + unfold TData.is_target in *. now rewrite Hct.
    + now rewrite Hcf, Hfa.
    + now rewrite Hcm, Hmw.
  - unfold TaskScheduler.weight_bounds.
    destruct Hw as [Hw | [_ Hw]]; rewrite Hw.
    + split; [split; assumption | lra].
    + rewrite Hf, Hm.
      destruct (shrink_bounds f m (TData.weight td) Hle Hlow Hpos)
        as (H1 & H2 & H3).
      split; [split; assumption | exact H1].
Qed.

Lemma step_weight model scores :
  forall self t td f m,
    TaskScheduler.auxiliary self t td f m ->
    (f <= 1)%Q -> TaskScheduler.weight_bounds f m td ->
    exists td',
      TaskScheduler.auxiliary
        (Py.final (TaskScheduler.step scores model self)) t td' f m
      /\ TaskScheduler.weight_bounds f m td'
      /\ (TData.weight td' <= TData.weight td)%Q.
Proof.
  induction scores as [| item scores IH]; intros self t td f m Haux Hle Hb.
  - exists td. cbn. repeat split; try apply Haux; try apply Hb. lra.
  - destruct (step_task_weight model item self t td f m Haux Hle Hb)
      as (td1 & Haux1 & Hb1 & Hw1).
    unfold TaskScheduler.step. cbn [Py.for_each]. unfold Py.bind.
    destruct (TaskScheduler.step_task model item self) as [[] s1 | e s1].
    + cbn [Py.final] in Haux1.
      destruct (IH s1 t td1 f m Haux1 Hle Hb1) as (td2 & Haux2 & Hb2 & Hw2).
      exists td2. repeat split; try apply Haux2; try apply Hb2. lra.
    + exists td1. auto.
Qed.

Lemma run_calls_weight calls :
  forall self t td f m,
    TaskScheduler.auxiliary self t td f m ->
    (f <= 1)%Q -> TaskScheduler.weight_bounds f m td ->
    exists td',
      TaskScheduler.auxiliary (TaskScheduler.run_calls calls self) t td' f m
      /\ TaskScheduler.weight_bounds f m td'
      /\ (TData.weight td' <= TData.weight td)%Q.
Proof.
  induction calls as [| c calls IH]; intros self t td f m Haux Hle Hb.
  - exists td. cbn. repeat split; try apply Haux; try apply Hb. lra.
  - destruct (step_weight (snd c) (fst c) self t td f m Haux Hle Hb)
      as (td1 & Haux1 & Hb1 & Hw1).
    destruct (IH _ t td1 f m Haux1 Hle Hb1) as (td2 & Haux2 & Hb2 & Hw2).
    exists td2. repeat split; try apply Haux2; try apply Hb2. lra.
Qed.

Lemma get_weights_lookup self t td :
  TaskScheduler.tasks self !! t = Some td ->
  TaskScheduler.get_weights self !! t = Some (TData.weight td).
Proof.
  intros H. unfold TaskScheduler.get_weights. now rewrite lookup_fmap, H.
Qed.

(** C4 (amended). For a task that is not the target, with effective
    factor at most 1 and an initial weight at least its [min_weight],
    and provided the weight cannot become negative ([min_weight] is not
    negative, or neither the factor nor the initial weight is): over any
    sequence of [step] calls, also one that goes on after an exception,
    the weight reported by [get_weights] after a call is at most the one
    before it, and never below [min_weight]. *)
Theorem weight_never_grows self t td (f m : Q) :
  TaskScheduler.tasks self !! t = Some td ->
  TData.is_target td = false ->
  Py.get (TData.factor td) (TaskScheduler.factor self) = f ->
  Py.get (TData.min_weight td) (TaskScheduler.min_weight self) = m ->
  (f <= 1)%Q ->
  (m <= TData.weight td)%Q ->
  ((0 <= m)%Q \/ ((0 <= f)%Q /\ (0 <= TData.weight td)%Q)) ->
  forall calls call,
  exists w w',
    TaskScheduler.get_weights (TaskScheduler.run_calls calls self) !! t = Some w
    /\ TaskScheduler.get_weights
         (TaskScheduler.run_calls (calls ++ [call]) self) !! t = Some w'
    /\ (w' <= w)%Q /\ (m <= w')%Q /\ (w <= TData.weight td)%Q.
Proof.
  intros H Htg Hf Hm Hle Hlow Hpos calls call.
  assert (Haux : TaskScheduler.auxiliary self t td f m) by (repeat split; assumption).
  assert (Hb : TaskScheduler.weight_bounds f m td) by (split; assumption).
  destruct (run_calls_weight calls self t td f m Haux Hle Hb)
    as (td1 & Haux1 & Hb1 & Hw1).
  destruct (run_calls_weight [call] _ t td1 f m Haux1 Hle Hb1)
    as (td2 & Haux2 & Hb2 & Hw2).
  exists (TData.weight td1), (TData.weight td2).
  unfold TaskScheduler.run_calls in *. rewrite fold_left_app.
  split; [apply get_weights_lookup, Haux1 |].
  split; [apply get_weights_lookup, Haux2 |].
  split; [exact Hw2 |]. split; [apply Hb2 | exact Hw1].
Qed.

(** One evaluation of a tracked task with a valid mode, in full. *)
Lemma evaluation_effect model task score self td b :
  TaskScheduler.tasks self !! task = Some td ->
  TaskScheduler.improves td
    (Py.get (TData.threshold td) (TaskScheduler.threshold self)) score = Some b ->
  let s' := Py.final (TaskScheduler.step [(task, score)] model self) in
  TaskScheduler.same_schedule self s'
  /\ exists td',
      TaskScheduler.tasks s' !! task = Some td'
      /\ TData.same_config td td'
      /\ TData.steps td' = (if b then 0 else TData.steps td + 1)
      /\ TData.best td' = (if b then score else TData.best td)
      /\ TData.weight td'
         = if TaskScheduler.exhausted self td' && negb (TData.is_target td)
           then TaskScheduler.shrink self td
           else TData.weight td.
Proof.
  intros H Hi s'. subst s'. rewrite step_single.
  rewrite (step_task_tracked _ _ _ _ _ _ H Hi). cbn zeta.
  pose proof (same_config_scored b score td) as Hsc.
  set (td1 := TData.scored b score td) in *.
  assert (Hs1 : TData.steps td1 = (if b then 0 else TData.steps td + 1))
    by (subst td1; destruct b; reflexivity).
  assert (Hb1 : TData.best td1 = (if b then score else TData.best td))
    by (subst td1; destruct b; reflexivity).
  assert (Hw1 : TData.weight td1 = TData.weight td)
    by (subst td1; destruct b; reflexivity).
  assert (Hsh : TaskScheduler.shrink self td1 = TaskScheduler.shrink self td)
    by (subst td1; destruct b; reflexivity).
  destruct (TaskScheduler.exhausted self td1) eqn:Hex;
    [destruct (TData.is_target td) eqn:Htg;
     [cbn [TaskScheduler.fid];
      destruct (if b && true then Some model else TaskScheduler.fid self) |] |];
    cbn [Py.final]; (split; [repeat split |]); cbn;
    rewrite ?lookup_insert_eq.
  - exists td1. rewrite Hex. cbn. auto.
  - exists td1. rewrite Hex. cbn. auto.
  - eexists. split; [reflexivity |].
    unfold TaskScheduler.exhausted in *. cbn. rewrite Hex. cbn.
    repeat split; try apply Hsc; first [assumption | reflexivity].
  - exists td1. rewrite Hex. cbn. auto.
Qed.

Lemma improves_same td td' thr value :
  TData.mode td' = TData.mode td -> TData.best td' = TData.best td ->
  TaskScheduler.improves td' thr value = TaskScheduler.improves td thr value.
Proof. intros Hm Hb. unfold TaskScheduler.improves. now rewrite Hm, Hb. Qed.

(** Evaluations that bring no improvement, on an auxiliary task within
    one step of its patience: every one of them shrinks the weight. *)
Lemma stuck_evaluations model task (p : Z) (thr f m : Q) values :
  forall self td,
    TaskScheduler.tasks self !! task = Some td ->
    TData.is_target td = false ->
    Py.get (TData.patience td) (TaskScheduler.patience self) = p ->
    Py.get (TData.threshold td) (TaskScheduler.threshold self) = thr ->
    Py.get (TData.factor td) (TaskScheduler.factor self) = f ->
    Py.get (TData.min_weight td) (TaskScheduler.min_weight self) = m ->
    (p <= TData.steps td + 1)%Z ->
    Forall (fun v => TaskScheduler.improves td thr v = Some false) values ->
    exists td',
      TaskScheduler.tasks (TaskScheduler.evaluations task values model self) !! task
      = Some td'
      /\ TData.steps td' = TData.steps td + Z.of_nat (length values)
      /\ TData.weight td'
         = Nat.iter (length values) (fun w => Py.max (w * f) m) (TData.weight td).
Proof.
  induction values as [| v values IH];
    intros self td H Htg Hp Hthr Hf Hm Hsteps Hall.
  - exists td. cbn. repeat split; [exact H | lia].
  - apply Forall_cons in Hall as [Hv Hall']. rewrite <- Hthr in Hv.
    destruct (evaluation_effect model task v self td false H Hv)
      as ((Hp1 & Hf1 & Ht1 & Hm1) & td1 & H1 & Hcfg & Hs1 & Hb1 & Hw1).
    pose proof Hcfg as (Hcp & Hct & Hcf & Hcm & Hctg & Hcmode).
    assert (Hex : TaskScheduler.exhausted self td1 = true).
    { unfold TaskScheduler.exhausted. rewrite Hcp, Hs1, Hp. apply Z.leb_le. lia. }
    rewrite Hex, Htg in Hw1. cbn in Hw1.
    set (s1 := Py.final (TaskScheduler.step [(task, v)] model self)) in *.
    destruct (IH s1 td1) as (td2 & H2 & Hs2 & Hw2).
    + exact H1.
    + unfold TData.is_target in *. now rewrite Hctg.
    + now rewrite Hcp, Hp1.
    + now rewrite Hct, Ht1.
    + now rewrite Hcf, Hf1.
    + now rewrite Hcm, Hm1.
    + rewrite Hs1. lia.
    + eapply Forall_impl; [exact Hall' |]. intros x Hx. cbn in Hx.
      rewrite <- Hx. now apply improves_same.
    + exists td2. split; [exact H2 |]. split.
      * rewrite Hs2, Hs1. cbn [length]. lia.
      * rewrite Hw2, Hw1. cbn [length]. rewrite Nat.iter_succ_r.
        unfold TaskScheduler.shrink. rewrite Hf, Hm. reflexivity.
Qed.

(** C5 (amended). For a tracked task with a valid mode, an evaluation
    sets the step counter to zero when it records an improvement and
    adds one to it otherwise; reaching the patience does not reset it.
    On a task that is not the target the weight becomes
    [max(weight * factor, min_weight)] at every evaluation that leaves the
    counter at or above the patience, so a task that stays stuck has the
    factor applied again at each evaluation, once per evaluation and not
    once per [patience] evaluations. *)
Theorem counter_and_shrink_per_evaluation self task td (model : St) :
  TaskScheduler.tasks self !! task = Some td ->
  let p := Py.get (TData.patience td) (TaskScheduler.patience self) in
  let thr := Py.get (TData.threshold td) (TaskScheduler.threshold self) in
  let f := Py.get (TData.factor td) (TaskScheduler.factor self) in
  let m := Py.get (TData.min_weight td) (TaskScheduler.min_weight self) in
  (forall score b,
      TaskScheduler.improves td thr score = Some b ->
      exists td',
        TaskScheduler.tasks
          (Py.final (TaskScheduler.step [(task, score)] model self)) !! task
        = Some td'
        /\ TData.steps td' = (if b then 0 else TData.steps td + 1)
        /\ TData.weight td'
           = if (p <=? TData.steps td')%Z && negb (TData.is_target td)
             then Py.max (TData.weight td * f) m
             else TData.weight td)
  /\ (forall values,
        TData.is_target td = false ->
        (p <= TData.steps td + 1)%Z ->
        Forall (fun v => TaskScheduler.improves td thr v = Some false) values ->
        exists td',
          TaskScheduler.tasks
            (TaskScheduler.evaluations task values model self) !! task
          = Some td'
          /\ TData.steps td' = TData.steps td + Z.of_nat (length values)
          /\ TData.weight td'
             = Nat.iter (length values) (fun w => Py.max (w * f) m)
                        (TData.weight td)).
Proof.
  intros H p thr f m. split.
  - intros score b Hi.
    destruct (evaluation_effect model task score self td b H Hi)
      as (_ & td' & H' & Hcfg & Hs & _ & Hw).
    exists td'. split; [exact H' |]. split; [exact Hs |].
    rewrite Hw. unfold TaskScheduler.exhausted.
    destruct Hcfg as (-> & _). reflexivity.
  - intros values Htg Hp Hall.
    now apply (stuck_evaluations model task p thr f m values self td).
Qed.

(** The shape of a run of the loop body that returns. *)
Lemma step_task_ok model task score self s' :
  TaskScheduler.step_task model (task, score) self = Py.Ok tt s' ->
  (TaskScheduler.tasks self !! task = None /\ s' = self)
  \/ exists tdk b td',
      TaskScheduler.tasks self !! task = Some tdk
      /\ TaskScheduler.improves tdk
           (Py.get (TData.threshold tdk) (TaskScheduler.threshold self)) score
         = Some b
      /\ TaskScheduler.tasks s' = <[task := td']> (TaskScheduler.tasks self)
      /\ TData.same_config tdk td'
      /\ TData.best td' = TData.best (TData.scored b score tdk)
      /\ TaskScheduler.fid s'
         = (if b && TData.is_target tdk then Some model
            else TaskScheduler.fid self).
Proof.
  destruct (TaskScheduler.tasks self !! task) as [tdk |] eqn:Hk.
  2:{ rewrite (step_task_untracked _ _ _ _ Hk). intros [= <-]. now left. }
  destruct (TaskScheduler.improves tdk
              (Py.get (TData.threshold tdk) (TaskScheduler.threshold self)) score)
    as [b |] eqn:Hi.
  2:{ rewrite (step_task_wrong_mode _ _ _ _ _ Hk Hi). discriminate. }
  rewrite (step_task_tracked _ _ _ _ _ _ Hk Hi). cbn zeta.
  pose proof (same_config_scored b score tdk) as Hsc.
  destruct (TaskScheduler.exhausted self (TData.scored b score tdk)).
  - destruct (TData.is_target tdk) eqn:Htg.
    + cbn [TaskScheduler.fid].
      destruct (if b && true then Some model else TaskScheduler.fid self);
        discriminate.
    + intros [= <-]. right. exists tdk, b. eexists.
      split; [first [exact Hk | reflexivity] |].
      split; [first [exact Hi | reflexivity] |]. cbn.
      split; [apply insert_insert_eq |].
      split; [destruct b; repeat split |].
      split; [destruct b; reflexivity |]. now rewrite Htg.
  - intros [= <-]. right. exists tdk, b, (TData.scored b score tdk).
    repeat split; try apply Hsc; first [assumption | reflexivity].
Qed.



(** A loop whose body keeps [P] when it returns and raises only
    exceptions in [Q], on items in [R], does the same as a whole. *)
Lemma for_each_invariant {S A} (P : S -> Prop) (Q : Py.exn St -> Prop)
    (R : A -> Prop) (body : A -> Py.M St S unit) :
  (forall x s, R x -> P s ->
               match body x s with
               | Py.Ok _ s' => P s'
               | Py.Raise e _ => Q e
               end) ->
  forall xs s, Forall R xs -> P s ->
               match Py.for_each xs body s with
               | Py.Ok _ s' => P s'
               | Py.Raise e _ => Q e
               end.
Proof.
  intros Hbody. induction xs as [| x xs IH]; intros s HR HP.
  - exact HP.
  - apply Forall_cons in HR as [Hx Hxs].
    cbn [Py.for_each]. unfold Py.bind.
    specialize (Hbody x s Hx HP).
    destruct (body x s) as [[] s1 | e s1]; [apply IH; assumption | exact Hbody].
Qed.




End SchedulerFacts.

(** ** The trainer *)

Section TrainerFacts.
Context {St Mdl B Batch Dev : Type}.
Variable model_tasks : list Task.t.
Variable random : Mdl -> Q * Mdl.
Variable model_loss : Mdl -> Batch -> string -> list (string * Q).
Variable optimize : Q -> option Q -> B -> Mdl -> Mdl.
Variable evaluate : Mdl -> Dev -> list (string * Q).
Variable accuracies : Mdl -> Dev -> list (string * Q).
Variable state_dict : Mdl -> St.
Variable load_state_dict : St -> Mdl -> Mdl.
Variable known_optimizer : string -> bool.
Variable new_optimizer : Settings.t -> Mdl -> option (Py.exn St).
Variable base_init : lr_kind -> Settings.t -> Py.exn St + B.
Variable base_step : lr_kind -> option Py.num -> B -> B.

Local Abbreviation trainer := (Trainer.t St Mdl B Batch).
Local Abbreviation train_batch :=
  (Trainer.train_batch model_tasks random model_loss optimize evaluate
     accuracies state_dict base_step).
Local Abbreviation train_batches :=
  (Trainer.train_batches model_tasks random model_loss optimize evaluate
     accuracies state_dict base_step).
Local Abbreviation train_epoch :=
  (Trainer.train_epoch model_tasks random model_loss optimize evaluate
     accuracies state_dict base_step).
Local Abbreviation epochs_loop :=
  (Trainer.epochs_loop model_tasks random model_loss optimize evaluate
     accuracies state_dict base_step).
Local Abbreviation train_epochs :=
  (Trainer.train_epochs model_tasks random model_loss optimize evaluate
     accuracies state_dict load_state_dict base_step).
Local Abbreviation init := (Trainer.init (St:=St) known_optimizer new_optimizer base_init base_step).

Lemma first_target_filter (tasks : list Task.t) :
  first_target tasks
  = match List.filter (fun t => truthy (Task.target t)) tasks with
    | [] => None
    | t :: _ => Some (Task.name t)
    end.
Proof.
  induction tasks as [| t tasks IH]; cbn; [reflexivity |].
  destruct (truthy (Task.target t)); [reflexivity | exact IH].
Qed.

(** C2 (amended). The only check on target tasks is [get_target_task],
    the first statement of the constructor of the trainer. With no target
    task the construction fails with the error "No target task?", whatever
    the other settings and collaborators. With one or more target tasks
    the check passes with the first task marked as target: whenever the
    construction succeeds that task is the target and the task scheduler
    is the one of the settings, and it does succeed when the rest of the
    constructor does (the optimizer is found and built, the batch size is
    not zero, the scheduler name is known and the scheduler is built). A
    second target is never a reason to fail, and the constructor of the
    task scheduler has no check at all. *)
Theorem construction_needs_a_target (settings : Settings.t) (mdl : Mdl)
    (bsize : Z) (bs : list Batch) (num_instances : Z) :
  match List.filter (fun t => truthy (Task.target t)) (Settings.tasks settings) with
  | [] => init settings mdl bsize bs num_instances
          = inl (Py.ValueError "No target task?")
  | t :: _ =>
      get_target_task (St:=St) settings = inr (Task.name t)
      /\ (forall tr : trainer,
            init settings mdl bsize bs num_instances = inr tr ->
            Trainer.target_task tr = Task.name t
            /\ Trainer.task_scheduler tr = TaskScheduler.init settings)
      /\ (known_optimizer (Settings.optimizer settings) = true ->
          new_optimizer settings mdl = None ->
          bsize <> 0 ->
          forall kind base,
            Trainer.get_scheduler (St:=St) settings = inr kind ->
            base_init kind settings = inr base ->
            exists tr : trainer,
              init settings mdl bsize bs num_instances = inr tr)
  end.
Proof.
  unfold Trainer.init, get_target_task.
  rewrite first_target_filter.
  destruct (List.filter _ (Settings.tasks settings)) as [| t rest];
    [reflexivity |].
  split; [reflexivity |]. split.
  - intros tr.
    destruct (negb _); [discriminate |].
    destruct (new_optimizer settings mdl); [discriminate |].
    destruct (bsize =? 0)%Z; [discriminate |].
    destruct (Trainer.get_scheduler settings) as [e | kind]; [discriminate |].
    destruct (base_init kind settings) as [e | base]; [discriminate |].
    intros [= <-]. split; reflexivity.
  - intros Hopt Hnew Hb kind base Hk Hbase.
    rewrite Hopt, Hnew, Hk, Hbase. cbn [negb].
    destruct (Z.eqb_spec bsize 0); [contradiction |].
    eexists. reflexivity.
Qed.

Lemma train_batch_no_check (devset : option Dev) (b : Z) (batch : Batch)
    (scores : option (list (string * Py.num))) (self : trainer) :
  Trainer.check_freq self <= 0 ->
  let r := train_batch devset b batch scores self in
  Trainer.task_scheduler (Py.final r) = Trainer.task_scheduler self
  /\ Trainer.check_freq (Py.final r) = Trainer.check_freq self
  /\ forall sc s, r = Py.Ok sc s -> sc = scores.
Proof.
  intros Hcf r. subst r. unfold Trainer.train_batch.
  destruct (random (Trainer.model self)) as [u mdl1].
  destruct (get_batch_task model_tasks 2 u) as [e | task];
    [cbn; repeat split; discriminate |].
  destruct (model_loss mdl1 batch task) as [| kv loss];
    [cbn; repeat split; discriminate |].
  cbn [Trainer.report_freq Trainer.check_freq Trainer.set_model].
  destruct ((0 <? b)%Z && (Trainer.report_freq self =? 0)%Z);
    [cbn; repeat split; discriminate |].
  destruct (Z.ltb_spec 0 (Trainer.check_freq self)); [lia |].
  cbn. repeat split. intros sc s [= <- _]. reflexivity.
Qed.

Lemma train_batches_no_check (devset : option Dev) (bs : list Batch) :
  forall (b : Z) (scores : option (list (string * Py.num))) (self : trainer),
    Trainer.check_freq self <= 0 ->
    let r := train_batches devset b bs scores self in
    Trainer.task_scheduler (Py.final r) = Trainer.task_scheduler self
    /\ forall sc s, r = Py.Ok sc s -> sc = scores.
Proof.
  induction bs as [| batch bs IH]; intros b scores self Hcf r; subst r.
  - cbn. split; [reflexivity |]. intros sc s [= <- _]. reflexivity.
  - cbn [Trainer.train_batches]. unfold Py.bind.
    destruct (train_batch_no_check devset b batch scores self Hcf)
      as (Hts & Hcf' & Hsc).
    destruct (train_batch devset b batch scores self) as [sc1 s1 | e s1].
    + cbn in Hts, Hcf'. rewrite (Hsc sc1 s1 eq_refl).
      destruct (IH (b + 1) scores s1 ltac:(lia)) as (Hts2 & Hsc2).
      split; [congruence | exact Hsc2].
    + cbn in *. split; [exact Hts | discriminate].
Qed.

(** C9. The check frequency for 100 batches is 99, 1, 25 and 0 for 1,
    200, 4 and 0 checks per epoch. In general, for a number of batches
    that is not negative: one check per epoch gives [num_batches - 1];
    any other value above [num_batches] gives 1 (any value at all when
    there is at least one batch); a value in (1, num_batches] gives
    [num_batches // checks_per_epoch]; a value that is not positive gives
    0. The constructor stores this value for
    [num_batches = num_instances // batch_size], and with the value 0 an
    epoch runs no check: it leaves the task scheduler as it was and
    returns no scores. *)
Theorem check_freq_derivation :
  derive_check_freq 100 1 = 99
  /\ derive_check_freq 100 200 = 1
  /\ derive_check_freq 100 4 = 25
  /\ derive_check_freq 100 0 = 0
  /\ (forall nb cpe : Z, 0 <= nb ->
        (cpe = 1 -> derive_check_freq nb cpe = nb - 1)
        /\ (nb < cpe -> cpe <> 1 -> derive_check_freq nb cpe = 1)
        /\ (1 < cpe <= nb -> derive_check_freq nb cpe = nb / cpe)
        /\ (cpe <= 0 -> derive_check_freq nb cpe = 0)
        /\ (1 <= nb -> nb < cpe -> derive_check_freq nb cpe = 1))
  /\ (forall settings mdl bsize bs num_instances (tr : trainer),
        init settings mdl bsize bs num_instances = inr tr ->
        Trainer.num_batches tr = num_instances / bsize
        /\ Trainer.check_freq tr
           = derive_check_freq (num_instances / bsize)
               (Settings.checks_per_epoch settings))
  /\ (forall (self : trainer) devset epoch,
        Trainer.check_freq self = 0 ->
        let r := train_epoch devset epoch self in
        Trainer.task_scheduler (Py.final r) = Trainer.task_scheduler self
        /\ forall sc s, r = Py.Ok sc s -> sc = None).
Proof.
  repeat match goal with |- _ /\ _ => split end; try reflexivity.
  - intros nb cpe Hnb. unfold derive_check_freq. repeat split.
    + intros ->. reflexivity.
    + intros Hlt Hne.
      destruct (Z.eqb_spec cpe 1); [contradiction |].
      destruct (Z.ltb_spec nb cpe); [reflexivity | lia].
    + intros [H1 H2].
      destruct (Z.eqb_spec cpe 1); [lia |].
      destruct (Z.ltb_spec nb cpe); [lia |].
      destruct (Z.ltb_spec 1 cpe); [reflexivity | lia].
    + intros Hle.
      destruct (Z.eqb_spec cpe 1); [lia |].
      destruct (Z.ltb_spec nb cpe); [lia |].
      destruct (Z.ltb_spec 1 cpe); [lia | reflexivity].
    + intros H1 Hlt.
      destruct (Z.eqb_spec cpe 1); [lia |].
      destruct (Z.ltb_spec nb cpe); [reflexivity | lia].
  - intros settings mdl bsize bs num_instances tr. unfold Trainer.init.
    destruct (get_target_task settings); [discriminate |].
    destruct (negb _); [discriminate |].
    destruct (new_optimizer settings mdl); [discriminate |].
    destruct (bsize =? 0)%Z; [discriminate |].
    destruct (Trainer.get_scheduler settings) as [e | kind]; [discriminate |].
    destruct (base_init kind settings); [discriminate |].
    intros [= <-]. split; reflexivity.
  - intros self devset epoch Hcf r.
    apply (train_batches_no_check devset (Trainer.batches self) 0 None self).
    lia.
Qed.

(** C7 (amended). [train_epochs] does not keep what [train_epoch]
    returns. When all epochs run without an exception it returns
    nothing, whether or not an evaluation ran; a score map is returned
    only after an [EarlyStopException], and it is the single entry of the
    stopped task with its best score, the model being reloaded from the
    carried snapshot; any other exception propagates. *)
Theorem train_epochs_returns_nothing (epochs : Z) (devset : option Dev)
    (self : trainer) :
  (forall u s', epochs_loop devset 1 (Z.to_nat epochs) self = Py.Ok u s' ->
                train_epochs epochs devset self = Py.Ok None s')
  /\ (forall task loss sd s',
        epochs_loop devset 1 (Z.to_nat epochs) self
        = Py.Raise (Py.EarlyStopException task loss sd) s' ->
        train_epochs epochs devset self
        = Py.Ok (Some [(task, loss)])
                (Trainer.set_model (load_state_dict sd (Trainer.model s')) s'))
  /\ (forall r s', train_epochs epochs devset self = Py.Ok r s' ->
                   r = None \/ exists task loss, r = Some [(task, loss)]).
Proof.
  unfold Trainer.train_epochs. repeat split.
  - intros u s' ->. reflexivity.
  - intros task loss sd s' ->. reflexivity.
  - intros r s'.
    destruct (epochs_loop devset 1 (Z.to_nat epochs) self) as [u s1 | e s1].
    + intros [= <- _]. now left.
    + destruct e; try discriminate. intros [= <- _]. right. eauto.
Qed.

End TrainerFacts.

(* ===================================================================== *)
(** * The properties on the concrete configurations                       *)
(* ===================================================================== *)

(** C1, on [Demo.scheduler]: the hypotheses hold of the task [pos], and
    the third call stops with the snapshot of the first. *)
Lemma early_stop_on_third_call_witness :
  TaskScheduler.tasks Demo.scheduler !! "pos" = Some Demo.pos_data
  /\ TData.is_target Demo.pos_data = true
  /\ Py.get (TData.patience Demo.pos_data)
            (TaskScheduler.patience Demo.scheduler) = 2
  /\ Py.lower (TData.mode Demo.pos_data) = "max"
  /\ (Py.get (TData.threshold Demo.pos_data)
             (TaskScheduler.threshold Demo.scheduler) == 0)%Q
  /\ TData.best Demo.pos_data = Py.NegInf
  /\ exists s1 s2 s3,
      TaskScheduler.step [("pos", Py.Fin (1 # 2))] 1%nat Demo.scheduler
      = Py.Ok tt s1
      /\ TaskScheduler.step [("pos", Py.Fin (1 # 2))] 2%nat s1 = Py.Ok tt s2
      /\ TaskScheduler.step [("pos", Py.Fin (1 # 2))] 3%nat s2
         = Py.Raise (Py.EarlyStopException "pos" (Py.Fin (1 # 2)) 1%nat) s3
      /\ TaskScheduler.fid s3 = None.
Proof.
  assert (H1 : TaskScheduler.tasks Demo.scheduler !! "pos" = Some Demo.pos_data)
    by (vm_compute; reflexivity).
  assert (H2 : TData.is_target Demo.pos_data = true) by reflexivity.
  assert (H3 : Py.get (TData.patience Demo.pos_data)
                 (TaskScheduler.patience Demo.scheduler) = 2) by reflexivity.
  assert (H4 : Py.lower (TData.mode Demo.pos_data) = "max") by reflexivity.
  assert (H5 : (Py.get (TData.threshold Demo.pos_data)
                  (TaskScheduler.threshold Demo.scheduler) == 0)%Q)
    by reflexivity.
  assert (H6 : TData.best Demo.pos_data = Py.NegInf) by reflexivity.
  repeat (split; [assumption |]).
  destruct (early_stop_on_third_call Demo.scheduler "pos" Demo.pos_data
              1%nat 2%nat 3%nat H1 H2 H3 H4 H5 H6)
    as (s1 & s2 & s3 & td1 & td2 & E1 & _ & _ & _ & _ & E2 & _ & _ & _ & _ & E3 & F3).
  exists s1, s2, s3. repeat split; assumption.
Defined.

(** C2: with two target tasks the trainer, and the scheduler in it, are
    constructed; the target is the first of the two. *)
Lemma two_targets_are_constructed :
  length (List.filter (fun t => truthy (Task.target t))
            (Settings.tasks Demo.settings_two_targets)) = 2%nat
  /\ match Demo.new_trainer Demo.settings_two_targets with
     | inr tr => Trainer.target_task tr = "pos"
                 /\ Trainer.task_scheduler tr
                    = TaskScheduler.init Demo.settings_two_targets
     | inl _ => False
     end.
Proof. split; [reflexivity |]. vm_compute. split; reflexivity. Qed.

(** An optimizer name that [get_optimizer] finds is not enough: the
    attribute is called, and the call of a module raises [TypeError]. *)
Lemma module_is_no_optimizer :
  Demo.known_optimizer (Settings.optimizer Demo.settings_module) = true
  /\ Demo.new_trainer Demo.settings_module = inl Py.TypeError.
Proof. split; reflexivity. Qed.

(** C2 (amended), on [Demo.settings]: the rest of the constructor
    succeeds, so the trainer is constructed with the target [pos]. *)
Lemma construction_needs_a_target_witness :
  exists tr,
    Demo.new_trainer Demo.settings = inr tr
    /\ Trainer.target_task tr = "pos"
    /\ Trainer.task_scheduler tr = TaskScheduler.init Demo.settings.
Proof.
  pose proof (construction_needs_a_target (St:=nat) (Mdl:=nat) (B:=Z)
                (Batch:=unit) Demo.known_optimizer Demo.new_optimizer
                Demo.base_init Demo.base_step
                Demo.settings 0%nat 1 [tt; tt; tt] 3) as H.
  cbn [Demo.settings Settings.tasks Demo.tasks List.filter truthy Py.get
       Task.target Task.name] in H.
  destruct H as (_ & Htr & Hex).
  assert (Hb : (1 <> 0)%Z) by lia.
  destruct (Hex eq_refl eq_refl Hb ReduceLROnPlateau 0%Z eq_refl eq_refl)
    as [tr E].
  exists tr. split; [exact E |]. exact (Htr tr E).
Defined.

(** C3: a mode that is neither max nor min does not make the construction
    fail; the error comes when a score of the task is compared. *)
Lemma unknown_mode_is_constructed :
  match Demo.new_trainer Demo.settings_median with
  | inr tr =>
      TData.mode <$> (TaskScheduler.tasks (Trainer.task_scheduler tr) !! "pos")
      = Some "median"
      /\ TaskScheduler.is_best "pos" (Py.Fin (1 # 2)) (Trainer.task_scheduler tr)
         = Py.Raise (Py.ValueError "Wrong mode value") (Trainer.task_scheduler tr)
  | inl _ => False
  end.
Proof. vm_compute. split; reflexivity. Qed.

(** C3 (amended), on [Demo.scheduler]: 0.5 improves on the initial
    best of [pos]. *)
Lemma is_best_contract_witness :
  TaskScheduler.tasks Demo.scheduler !! "pos" = Some Demo.pos_data
  /\ exists b,
      TaskScheduler.is_best "pos" (Py.Fin (1 # 2)) Demo.scheduler
      = Py.Ok b Demo.scheduler
      /\ (b = true <-> Py.lt (Py.add (TData.best Demo.pos_data) 0) (Py.Fin (1 # 2))).
Proof.
  assert (H1 : TaskScheduler.tasks Demo.scheduler !! "pos" = Some Demo.pos_data)
    by (vm_compute; reflexivity).
  split; [exact H1 |].
  exact (proj1 (is_best_contract Demo.scheduler "pos" Demo.pos_data
                  (Py.Fin (1 # 2)) H1) eq_refl).
Defined.

(** C4: with the factor [-1] (at most 1) and the minimal weight [-5] (below
    the initial weight 1) the weight of [lemma] goes from 1 to [-1] at the
    second call and back up to 1 at the third. *)
Lemma weight_grows_with_negative_factor :
  let s := TaskScheduler.init (St:=nat) Demo.settings_negative in
  let c := Demo.lemma_call in
  TaskScheduler.get_weights s !! "lemma" = Some 1%Q
  /\ TaskScheduler.get_weights (TaskScheduler.run_calls [c; c] s) !! "lemma"
     = Some (-1)%Q
  /\ TaskScheduler.get_weights (TaskScheduler.run_calls [c; c; c] s) !! "lemma"
     = Some 1%Q
  /\ Py.get (TData.factor (TData.Make (Some 1) None (Some (-1)%Q) (Some (-5)%Q)
                             (Some false) 0 "max" 1 Py.NegInf))
            (TaskScheduler.factor s) = (-1)%Q
  /\ TaskScheduler.tasks s !! "lemma"
     = Some (TData.Make (Some 1) None (Some (-1)%Q) (Some (-5)%Q)
               (Some false) 0 "max" 1 Py.NegInf)
  /\ (-1 <= 1)%Q /\ (-5 <= 1)%Q /\ (-1 < 1)%Q.
Proof. vm_compute. repeat split; discriminate. Qed.

(** C4 (amended), on [Demo.scheduler] and the task [lemma]. *)
Lemma weight_never_grows_witness :
  TaskScheduler.tasks Demo.scheduler !! "lemma" = Some Demo.lemma_data
  /\ TData.is_target Demo.lemma_data = false
  /\ Py.get (TData.factor Demo.lemma_data)
            (TaskScheduler.factor Demo.scheduler) = (1 # 2)%Q
  /\ Py.get (TData.min_weight Demo.lemma_data)
            (TaskScheduler.min_weight Demo.scheduler) = (1 # 10)%Q
  /\ (1 # 2 <= 1)%Q
  /\ (1 # 10 <= TData.weight Demo.lemma_data)%Q
  /\ ((0 <= 1 # 10)%Q
      \/ ((0 <= 1 # 2)%Q /\ (0 <= TData.weight Demo.lemma_data)%Q))
  /\ exists w w',
      TaskScheduler.get_weights
        (TaskScheduler.run_calls [Demo.lemma_call; Demo.lemma_call]
           Demo.scheduler) !! "lemma" = Some w
      /\ TaskScheduler.get_weights
           (TaskScheduler.run_calls
              ([Demo.lemma_call; Demo.lemma_call] ++ [Demo.lemma_call])
              Demo.scheduler) !! "lemma" = Some w'
      /\ (w' <= w)%Q /\ (1 # 10 <= w')%Q /\ (w <= TData.weight Demo.lemma_data)%Q.
Proof.
  assert (H1 : TaskScheduler.tasks Demo.scheduler !! "lemma" = Some Demo.lemma_data)
    by (vm_compute; reflexivity).
  assert (H2 : TData.is_target Demo.lemma_data = false) by reflexivity.
  assert (H3 : Py.get (TData.factor Demo.lemma_data)
                 (TaskScheduler.factor Demo.scheduler) = (1 # 2)%Q)
    by reflexivity.
  assert (H4 : Py.get (TData.min_weight Demo.lemma_data)
                 (TaskScheduler.min_weight Demo.scheduler) = (1 # 10)%Q)
    by reflexivity.
  assert (H5 : (1 # 2 <= 1)%Q) by (unfold Qle; simpl; lia).
  assert (H6 : (1 # 10 <= TData.weight Demo.lemma_data)%Q)
    by (unfold Qle; simpl; lia).
  assert (H7 : (0 <= 1 # 10)%Q
               \/ ((0 <= 1 # 2)%Q /\ (0 <= TData.weight Demo.lemma_data)%Q))
    by (left; unfold Qle; simpl; lia).
  repeat (split; [assumption |]).
  exact (weight_never_grows Demo.scheduler "lemma" Demo.lemma_data
           (1 # 2) (1 # 10) H1 H2 H3 H4 H5 H6 H7
           [Demo.lemma_call; Demo.lemma_call] Demo.lemma_call).
Defined.

(** C5: with patience 2 and factor 1/2, the task [lemma] reaches its
    patience at the third evaluation of the same score, where its weight
    is halved, and the weight is halved again at the fourth and at the
    fifth evaluation. *)
Lemma shrink_at_consecutive_evaluations :
  let h := Py.Fin (1 # 2) in
  let after vs :=
    TData.weight
      <$> (TaskScheduler.tasks
             (TaskScheduler.evaluations "lemma" vs 0%nat Demo.scheduler)
           !! "lemma") in
  Py.get (TData.patience Demo.lemma_data)
         (TaskScheduler.patience Demo.scheduler) = 2
  /\ after [h; h] = Some 1%Q
  /\ after [h; h; h] = Some (1 # 2)%Q
  /\ after [h; h; h; h] = Some (1 # 4)%Q
  /\ after [h; h; h; h; h] = Some (1 # 8)%Q.
Proof. vm_compute. repeat split; reflexivity. Qed.

(** C5 (amended), on [Demo.scheduler]: the first score of [lemma] is
    an improvement and leaves the counter at zero. *)
Lemma counter_and_shrink_per_evaluation_witness :
  TaskScheduler.tasks Demo.scheduler !! "lemma" = Some Demo.lemma_data
  /\ exists td',
      TaskScheduler.tasks
        (Py.final (TaskScheduler.step [("lemma", Py.Fin (1 # 2))] 0%nat
                     Demo.scheduler)) !! "lemma" = Some td'
      /\ TData.steps td' = 0.
Proof.
  assert (H1 : TaskScheduler.tasks Demo.scheduler !! "lemma" = Some Demo.lemma_data)
    by (vm_compute; reflexivity).
  split; [exact H1 |].
  destruct (proj1 (counter_and_shrink_per_evaluation Demo.scheduler "lemma"
                     Demo.lemma_data 0%nat H1) (Py.Fin (1 # 2)) true eq_refl)
    as (td' & Hl & Hs & _).
  exists td'. split; assumption.
Defined.

(** C7: an epoch of three batches runs one check, and [train_epoch]
    returns its scores; [train_epochs] over that one epoch returns
    nothing. *)
Lemma train_epochs_drops_scores :
  match Demo.new_trainer Demo.settings with
  | inr tr =>
      (exists s, Demo.train_epoch (Some tt) 1 tr
                 = Py.Ok (Some [("pos", Py.Fin (3 # 100))]) s)
      /\ (exists s, Demo.train_epochs 1 (Some tt) tr = Py.Ok None s)
  | inl _ => False
  end.
Proof. vm_compute. split; eexists; reflexivity. Qed.

(** C7 (amended), on the trainer of [Demo.settings]. *)
Lemma train_epochs_returns_nothing_witness :
  match Demo.new_trainer Demo.settings with
  | inr tr =>
      forall u s',
        Trainer.epochs_loop Demo.tasks Demo.random Demo.model_loss
          Demo.optimize Demo.evaluate Demo.accuracies
          Demo.state_dict Demo.base_step (Some tt) 1 (Z.to_nat 1) tr
        = Py.Ok u s' ->
        Demo.train_epochs 1 (Some tt) tr = Py.Ok None s'
  | inl _ => True
  end.
Proof.
  destruct (Demo.new_trainer Demo.settings) as [e | tr]; [exact I |].
  exact (proj1 (train_epochs_returns_nothing Demo.tasks Demo.random
                  Demo.model_loss Demo.optimize Demo.evaluate
                  Demo.accuracies Demo.state_dict Demo.load_state_dict
                  Demo.base_step 1 (Some tt) tr)).
Defined.


(** Outside the range of the floats: with the factor [2^-1074] the weight
    [aux] is infinite, and [random.choices] refuses the total, whether the
    target is among the names or not. *)
Lemma sample_task_infinite_weights :
  sample_task (St:=unit) (Some "x") ["a"; "b"] (1 # 2 ^ 1074) (1 # 2)
  = inl (Py.ValueError "Total of weights must be finite")
  /\ sample_task (St:=unit) (Some "a") ["a"; "b"] (1 # 2 ^ 1074) (1 # 2)
     = inl (Py.ValueError "Total of weights must be finite").
Proof. split; vm_compute; reflexivity. Qed.


(** C9, for 100 batches and 4 checks per epoch. *)
Lemma check_freq_derivation_witness :
  (0 <= 100)%Z /\ (1 < 4 <= 100)%Z /\ derive_check_freq 100 4 = (100 / 4)%Z.
Proof.
  assert (H1 : (0 <= 100)%Z) by lia.
  assert (H2 : (1 < 4 <= 100)%Z) by lia.
  repeat (split; [assumption |]).
  exact (proj1 (proj2 (proj2
           (proj1 (proj2 (proj2 (proj2 (proj2
              (check_freq_derivation (St:=nat) (Mdl:=nat) (B:=Z) (Batch:=unit)
                 (Dev:=unit) Demo.tasks Demo.random Demo.model_loss
                 Demo.optimize Demo.evaluate Demo.accuracies
                 Demo.state_dict Demo.known_optimizer Demo.new_optimizer Demo.base_init
                 Demo.base_step)))))
              100 4 H1))) H2).
Defined.



(* ===================================================================== *)
(** * Further properties of the sampling functions                        *)
(* ===================================================================== *)

Section SamplingMore.
Context {St : Type}.

Lemma batch_names_acc (tasks : list Task.t) :
  forall (tnames : list string) (tgt : option string),
    batch_names tasks tnames tgt
    = ((tnames ++ map Task.name tasks)%list,
       match first_target (rev tasks) with
       | Some n => Some n
       | None => tgt
       end).
Proof.
  induction tasks as [| t tasks IH]; intros tnames tgt.
  - cbn. now rewrite app_nil_r.
  - cbn [batch_names map rev]. rewrite IH, <- app_assoc. cbn [app].
    f_equal.
    assert (Hrev : forall l : list Task.t,
               first_target (l ++ [t])%list
               = match first_target l with
                 | Some n => Some n
                 | None => if truthy (Task.target t) then Some (Task.name t) else None
                 end).
    { induction l as [| x l IHl]; cbn.
      - destruct (truthy (Task.target t)); reflexivity.
      - destruct (truthy (Task.target x)); [reflexivity | exact IHl]. }
    rewrite Hrev.
    destruct (first_target (rev tasks)); [reflexivity |].
    destruct (truthy (Task.target t)); reflexivity.
Qed.

Lemma get_batch_task_names (tasks : list Task.t) (factor u : Q) :
  get_batch_task (St:=St) tasks factor u
  = sample_task (first_target (rev tasks)) (map Task.name tasks) factor u.
Proof.
  unfold get_batch_task. rewrite batch_names_acc. cbn [app].
  destruct (first_target (rev tasks)); reflexivity.
Qed.

(** X1. [get_batch_task] draws among the names of all the tasks, in their
    order, and its target is the last task whose [target] is truthy
    ([get_target_task] takes the first), or none when no task has one. *)
Theorem get_batch_task_last_target (tasks : list Task.t) (factor u : Q) :
  get_batch_task (St:=St) tasks factor u
  = sample_task
      (match rev (List.filter (fun t => truthy (Task.target t)) tasks) with
       | [] => None
       | t :: _ => Some (Task.name t)
       end)
      (map Task.name tasks) factor u.
Proof.
  rewrite get_batch_task_names. f_equal.
  rewrite first_target_filter. now rewrite List.filter_rev.
Qed.

Lemma first_target_rev_filter (tasks : list Task.t) :
  first_target (rev tasks)
  = match rev (List.filter (fun t => truthy (Task.target t)) tasks) with
    | [] => None
    | t :: _ => Some (Task.name t)
    end.
Proof.
  rewrite first_target_filter. now rewrite List.filter_rev.
Qed.

(** X2. With exactly one task marked as target, the sampler and the
    trainer agree on the target: [get_batch_task] draws with the name that
    [get_target_task] returns. *)
Theorem one_target_is_shared (settings : Settings.t) (factor u : Q) :
  length (List.filter (fun t => truthy (Task.target t))
            (Settings.tasks settings)) = 1%nat ->
  exists n,
    get_target_task (St:=St) settings = inr n
    /\ get_batch_task (St:=St) (Settings.tasks settings) factor u
       = sample_task (Some n) (map Task.name (Settings.tasks settings)) factor u.
Proof.
  intros Hone. unfold get_target_task.
  rewrite get_batch_task_names, first_target_rev_filter, first_target_filter.
  destruct (List.filter _ (Settings.tasks settings)) as [| t [| t' rest]];
    try discriminate.
  exists (Task.name t). split; reflexivity.
Qed.

(** X3. [sample_task] on no task at all raises [IndexError] (from
    [random.choices]), and on two or more tasks with a zero [factor] it
    raises [ZeroDivisionError], whatever the target. *)
Theorem sample_task_errors (target : option string) (tasks : list string)
    (factor u : Q) :
  (tasks = [] -> sample_task (St:=St) target tasks factor u = inl Py.IndexError)
  /\ ((1 < length tasks)%nat -> (factor == 0)%Q ->
      sample_task (St:=St) target tasks factor u = inl Py.ZeroDivisionError).
Proof.
  split.
  - intros ->. reflexivity.
  - intros Hn Hf. unfold sample_task, aux_weight.
    apply Nat.ltb_lt in Hn. rewrite Hn.
    apply Qeq_bool_iff in Hf. now rewrite Hf.
Qed.

(** X4. With a single task the factor plays no part: the task is drawn
    when it is the target, and otherwise its weight is zero and
    [random.choices] raises [ValueError]. *)
Theorem sample_task_single (target : option string) (t : string)
    (factor u : Q) :
  sample_task (St:=St) target [t] factor u
  = if is_target_name target t then inr t
    else inl (Py.ValueError "Total of weights must be greater than zero").
Proof.
  unfold sample_task, aux_weight, sample_weights.
  cbn [length Nat.ltb Nat.leb map].
  destruct (is_target_name target t); vm_compute; reflexivity.
Qed.


(** The exceptions of [sample_task] are those three. *)
Lemma sample_task_exceptions (target : option string) (tasks : list string)
    (factor u : Q) (e : Py.exn St) :
  sample_task target tasks factor u = inl e ->
  e = Py.ZeroDivisionError \/ e = Py.IndexError \/ exists msg, e = Py.ValueError msg.
Proof.
  unfold sample_task, aux_weight, Random.choices.
  destruct (1 <? length tasks)%nat; [destruct (Qeq_bool factor 0) |];
    try (intros [= <-]; now left);
    (destruct (negb (_ =? _)%nat); [intros [= <-]; right; right; eauto |]);
    (destruct (last _); destruct tasks; try (intros [= <-]; right; now left));
    (destruct (Float.leb _ _); [intros [= <-]; right; right; eauto |]);
    (destruct (negb (Float.isfinite _));
       [intros [= <-]; right; right; eauto | discriminate]).
Qed.

End SamplingMore.

(** X2, on [Demo.settings]. *)
Lemma one_target_is_shared_witness :
  length (List.filter (fun t => truthy (Task.target t))
            (Settings.tasks Demo.settings)) = 1%nat
  /\ exists n,
      get_target_task (St:=nat) Demo.settings = inr n
      /\ get_batch_task (St:=nat) (Settings.tasks Demo.settings) 2 (1 # 2)
         = sample_task (Some n) (map Task.name (Settings.tasks Demo.settings))
             2 (1 # 2).
Proof.
  assert (H : length (List.filter (fun t => truthy (Task.target t))
                        (Settings.tasks Demo.settings)) = 1%nat) by reflexivity.
  split; [exact H |].
  exact (one_target_is_shared (St:=nat) Demo.settings 2 (1 # 2) H).
Defined.


(* ===================================================================== *)
(** * Further properties of the task scheduler                            *)
(* ===================================================================== *)

Section SchedulerMore.
Context {St : Type}.
Implicit Types (self : TaskScheduler.t St) (td : TData.t).

Lemma preprocess_snoc (settings : Settings.t) (l : list Task.t) (t : Task.t)
    (acc : gmap string (Schedule.t * option bool)) :
  fold_left
    (TaskScheduler.preprocess_task (Settings.include_lm settings)
       (Settings.lm_schedule settings)) (l ++ [t])%list acc
  = TaskScheduler.preprocess_task (Settings.include_lm settings)
      (Settings.lm_schedule settings)
      (fold_left
         (TaskScheduler.preprocess_task (Settings.include_lm settings)
            (Settings.lm_schedule settings)) l acc) t.
Proof. now rewrite fold_left_app. Qed.

Lemma preprocess_tracked (lmb : bool) (lm : Schedule.t) (l : list Task.t)
    (n : string) :
  is_Some (fold_left (TaskScheduler.preprocess_task lmb lm) l ∅ !! n)
  <-> In n (map Task.name l)
      \/ (lmb = true /\ l <> [] /\ (n = "lm_fwd" \/ n = "lm_bwd")).
Proof.
  induction l as [| t l IH] using rev_ind.
  - cbn. rewrite lookup_empty. split.
    + intros [x Hx]. discriminate.
    + intros [[] | (_ & Hne & _)]. congruence.
  - rewrite fold_left_app. cbn [fold_left].
    unfold TaskScheduler.preprocess_task at 1.
    rewrite map_app, in_app_iff. cbn [map In].
    assert (Hsnoc : (l ++ [t])%list <> []) by (intros E; now apply app_eq_nil in E as [_ E]).
    destruct lmb.
    + destruct (decide (n = "lm_bwd")) as [-> | Hb].
      { rewrite lookup_insert_eq. split; [intros _ | eauto]. right. tauto. }
      rewrite lookup_insert_ne by congruence.
      destruct (decide (n = "lm_fwd")) as [-> | Hf].
      { rewrite lookup_insert_eq. split; [intros _ | eauto]. right. tauto. }
      rewrite lookup_insert_ne by congruence.
      destruct (decide (n = Task.name t)) as [-> | Ht].
      { rewrite lookup_insert_eq. split; [intros _ | eauto]. left. tauto. }
      rewrite lookup_insert_ne by congruence. rewrite IH.
      split.
      * intros [Hin | (_ & _ & [-> | ->])]; try congruence. tauto.
      * intros [[Hin | [Hin | []]] | (_ & _ & [-> | ->])]; try congruence. tauto.
    + destruct (decide (n = Task.name t)) as [-> | Ht].
      { rewrite lookup_insert_eq. split; [intros _ | eauto]. left. tauto. }
      rewrite lookup_insert_ne by congruence. rewrite IH.
      split.
      * intros [Hin | (E & _)]; [tauto | discriminate].
      * intros [[Hin | [Hin | []]] | (E & _)]; try congruence; try discriminate. tauto.
Qed.
(** X6. The tasks the scheduler tracks are the task names of the
    settings, and the two language-model tasks when [include_lm] is set
    and there is at least one task (they are added inside the loop over
    the tasks). *)
Theorem init_tracked_tasks (settings : Settings.t) (n : string) :
  is_Some (TaskScheduler.tasks (TaskScheduler.init (St:=St) settings) !! n)
  <-> In n (map Task.name (Settings.tasks settings))
      \/ (Settings.include_lm settings = true
          /\ Settings.tasks settings <> []
          /\ (n = "lm_fwd" \/ n = "lm_bwd")).
Proof.
  cbn. rewrite lookup_fmap, fmap_is_Some. apply preprocess_tracked.
Qed.

(** X7. With [include_lm] and at least one task, the entries [lm_fwd] and
    [lm_bwd] are built from [lm_schedule] and carry no [target] key, so
    they are never the target, also when a configured task has one of
    these names. *)
Theorem init_lm_tasks (settings : Settings.t) (n : string) :
  Settings.include_lm settings = true ->
  Settings.tasks settings <> [] ->
  n = "lm_fwd" \/ n = "lm_bwd" ->
  exists td,
    TaskScheduler.tasks (TaskScheduler.init (St:=St) settings) !! n = Some td
    /\ td = TaskScheduler.init_tdata (Settings.lm_schedule settings, None)
    /\ TData.is_target td = false.
Proof.
  intros Hlm Hne Hn. eexists. split; [| split; reflexivity].
  cbn. rewrite lookup_fmap. unfold TaskScheduler.preprocess.
  destruct (Settings.tasks settings) as [| t0 l0] using rev_ind; [congruence |].
  rewrite preprocess_snoc. unfold TaskScheduler.preprocess_task at 1.
  rewrite Hlm. destruct Hn as [-> | ->].
  - rewrite lookup_insert_ne by discriminate. now rewrite lookup_insert_eq.
  - now rewrite lookup_insert_eq.
Qed.

Lemma preprocess_last (lm : Schedule.t) (l : list Task.t) (n : string) :
  fold_left (TaskScheduler.preprocess_task false lm) l ∅ !! n
  = (fun task =>
       (Py.get (Task.schedule task) Schedule.empty,
        Some (Py.get (Task.target task) false)))
      <$> List.find (fun task => String.eqb (Task.name task) n) (rev l).
Proof.
  induction l as [| t l IH] using rev_ind.
  - reflexivity.
  - rewrite fold_left_app, rev_app_distr. cbn [fold_left rev app List.find].
    unfold TaskScheduler.preprocess_task at 1.
    destruct (String.eqb_spec (Task.name t) n) as [-> | Hne].
    + now rewrite lookup_insert_eq.
    + rewrite lookup_insert_ne by exact Hne. exact IH.
Qed.

(** X8. Without [include_lm], the dict tracked under a name is built from
    the last task of the settings with that name (a later task replaces an
    earlier one of the same name): its schedule overrides, its target
    flag, the step counter 0, the mode (default max), the weight (default
    1) and the initial best of the mode. *)
Theorem init_last_task_wins (settings : Settings.t) (n : string) :
  Settings.include_lm settings = false ->
  TaskScheduler.tasks (TaskScheduler.init (St:=St) settings) !! n
  = (fun task =>
       TaskScheduler.init_tdata
         (Py.get (Task.schedule task) Schedule.empty,
          Some (Py.get (Task.target task) false)))
      <$> List.find (fun task => String.eqb (Task.name task) n)
            (rev (Settings.tasks settings)).
Proof.
  intros Hlm. unfold TaskScheduler.init, TaskScheduler.preprocess.
  cbn [TaskScheduler.tasks]. rewrite lookup_fmap, Hlm, preprocess_last.
  destruct (List.find _ (rev (Settings.tasks settings))); reflexivity.
Qed.

(** X9. [step] ignores scores of tasks it does not track: when none of
    the scored tasks is tracked it returns normally and changes nothing. *)
Theorem step_ignores_unknown_tasks (scores : list (string * Py.num))
    (model : St) self :
  Forall (fun item => TaskScheduler.tasks self !! fst item = None) scores ->
  TaskScheduler.step scores model self = Py.Ok tt self.
Proof.
  induction scores as [| [task score] scores IH]; intros Hall.
  - reflexivity.
  - apply Forall_cons in Hall as [Hx Hall].
    unfold TaskScheduler.step. cbn [Py.for_each]. unfold Py.bind.
    rewrite (step_task_untracked _ _ _ _ Hx). apply IH, Hall.
Qed.

(** A property of the state kept by every run of the loop body is kept by
    [step] and by any list of calls, whatever their outcome. *)
Lemma step_final_invariant (P : TaskScheduler.t St -> Prop) (model : St) :
  (forall item s, P s -> P (Py.final (TaskScheduler.step_task model item s))) ->
  forall scores s, P s -> P (Py.final (TaskScheduler.step scores model s)).
Proof.
  intros Hbody. induction scores as [| item scores IH]; intros s HP.
  - exact HP.
  - unfold TaskScheduler.step. cbn [Py.for_each]. unfold Py.bind.
    specialize (Hbody item s HP).
    destruct (TaskScheduler.step_task model item s) as [[] s1 | e s1].
    + apply IH, Hbody.
    + exact Hbody.
Qed.

Lemma run_calls_invariant (P : TaskScheduler.t St -> Prop) :
  (forall model item s,
      P s -> P (Py.final (TaskScheduler.step_task model item s))) ->
  forall calls s, P s -> P (TaskScheduler.run_calls calls s).
Proof.
  intros Hbody. induction calls as [| c calls IH]; intros s HP.
  - exact HP.
  - cbn. apply IH. apply step_final_invariant; [apply Hbody | exact HP].
Qed.

(** The loop body writes at most the dict of its own, tracked, task. *)
Lemma step_task_tasks model task score self :
  let s' := Py.final (TaskScheduler.step_task model (task, score) self) in
  TaskScheduler.tasks s' = TaskScheduler.tasks self
  \/ exists tdk td',
      TaskScheduler.tasks self !! task = Some tdk
      /\ TaskScheduler.tasks s' = <[task := td']> (TaskScheduler.tasks self).
Proof.
  intros s'. subst s'.
  destruct (TaskScheduler.tasks self !! task) as [tdk |] eqn:Hk.
  2:{ rewrite (step_task_untracked _ _ _ _ Hk). now left. }
  destruct (TaskScheduler.improves tdk
              (Py.get (TData.threshold tdk) (TaskScheduler.threshold self)) score)
    as [b |] eqn:Hi.
  2:{ rewrite (step_task_wrong_mode _ _ _ _ _ Hk Hi). now left. }
  rewrite (step_task_tracked _ _ _ _ _ _ Hk Hi). cbn zeta.
  right. exists tdk.
  destruct (TaskScheduler.exhausted self (TData.scored b score tdk));
    [destruct (TData.is_target tdk);
     [cbn [TaskScheduler.fid];
      destruct (if b && true then Some model else TaskScheduler.fid self) |] |];
    cbn; eexists; (split; [reflexivity |]);
    first [reflexivity | apply insert_insert_eq].
Qed.

(** X10. Whatever the scores and the outcome, a sequence of [step] calls
    leaves the set of tracked tasks and the global schedule (patience,
    factor, threshold, minimal weight) as they were. *)
Theorem step_keeps_tasks_and_schedule
    (calls : list (list (string * Py.num) * St)) self :
  dom (TaskScheduler.tasks (TaskScheduler.run_calls calls self))
  = dom (TaskScheduler.tasks self)
  /\ TaskScheduler.same_schedule self (TaskScheduler.run_calls calls self).
Proof.
  apply (run_calls_invariant
           (fun s => dom (TaskScheduler.tasks s) = dom (TaskScheduler.tasks self)
                     /\ TaskScheduler.same_schedule self s)).
  - intros model [task score] s [Hdom Hsch]. split.
    + destruct (step_task_tasks model task score s)
        as [-> | (tdk & td' & Hk & ->)]; [exact Hdom |].
      rewrite dom_insert_L, <- Hdom.
      apply subseteq_union_1_L, singleton_subseteq_l.
      exact (elem_of_dom_2 _ _ _ Hk).
    + destruct (TaskScheduler.tasks s !! task) as [tdk |] eqn:Hk.
      * eapply same_schedule_trans; [exact Hsch |].
        apply (step_task_effect model (task, score) s task tdk Hk).
      * now rewrite (step_task_untracked _ _ _ _ Hk).
  - split; [reflexivity | apply same_schedule_refl].
Qed.

(** X11. The weight of a target task is never changed: after any
    sequence of [step] calls [get_weights] reports its initial weight. *)
Theorem target_weight_is_constant
    (calls : list (list (string * Py.num) * St)) self t td :
  TaskScheduler.tasks self !! t = Some td ->
  TData.is_target td = true ->
  TaskScheduler.get_weights (TaskScheduler.run_calls calls self) !! t
  = Some (TData.weight td).
Proof.
  intros H Htg.
  assert (Hinv : exists td',
             TaskScheduler.tasks (TaskScheduler.run_calls calls self) !! t = Some td'
             /\ TData.is_target td' = true
             /\ TData.weight td' = TData.weight td).
  { apply (run_calls_invariant
             (fun s => exists td',
                  TaskScheduler.tasks s !! t = Some td'
                  /\ TData.is_target td' = true
                  /\ TData.weight td' = TData.weight td)); [| eauto].
    intros model item s (td1 & H1 & Htg1 & Hw1).
    destruct (step_task_effect model item s t td1 H1)
      as (_ & td2 & H2 & Hcfg & Hw2).
    exists td2. split; [exact H2 |].
    destruct Hcfg as (_ & _ & _ & _ & Ht & _). split.
    - unfold TData.is_target in *. now rewrite Ht.
    - destruct Hw2 as [-> | [Hfalse _]]; [exact Hw1 | congruence]. }
  destruct Hinv as (td' & H' & _ & Hw).
  rewrite (get_weights_lookup _ _ _ H'). now rewrite Hw.
Qed.

(** How the loop body raises [EarlyStopException]. *)
Lemma step_task_early_stop model task0 score self task loss sd s' :
  TaskScheduler.step_task model (task0, score) self
  = Py.Raise (Py.EarlyStopException task loss sd) s' ->
  task = task0
  /\ TaskScheduler.fid s' = None
  /\ (sd = model \/ TaskScheduler.fid self = Some sd)
  /\ exists td',
      TaskScheduler.tasks s' !! task = Some td'
      /\ TData.is_target td' = true
      /\ TData.best td' = loss
      /\ TaskScheduler.exhausted s' td' = true.
Proof.
  destruct (TaskScheduler.tasks self !! task0) as [tdk |] eqn:Hk.
  2:{ rewrite (step_task_untracked _ _ _ _ Hk). discriminate. }
  destruct (TaskScheduler.improves tdk
              (Py.get (TData.threshold tdk) (TaskScheduler.threshold self)) score)
    as [b |] eqn:Hi.
  2:{ rewrite (step_task_wrong_mode _ _ _ _ _ Hk Hi). discriminate. }
  rewrite (step_task_tracked _ _ _ _ _ _ Hk Hi). cbn zeta.
  destruct (TaskScheduler.exhausted self (TData.scored b score tdk)) eqn:Hex;
    [| discriminate].
  destruct (TData.is_target tdk) eqn:Htg; [| discriminate].
  cbn [TaskScheduler.fid]. rewrite andb_true_r.
  destruct (if b then Some model else TaskScheduler.fid self) as [sd0 |] eqn:Hfid;
    [| discriminate].
  intros [= <- <- <- <-]. split; [reflexivity |]. split; [reflexivity |].
  split; [destruct b; [left | right]; congruence |].
  exists (TData.scored b score tdk). cbn. rewrite lookup_insert_eq.
  repeat split; [destruct b; exact Htg | exact Hex].
Qed.

Lemma for_each_raise {S A} (body : A -> Py.M St S unit) (xs : list A) :
  forall s e s',
    Py.for_each xs body s = Py.Raise e s' ->
    exists x s0, In x xs /\ body x s0 = Py.Raise e s'.
Proof.
  induction xs as [| x xs IH]; intros s e s'; [discriminate |].
  cbn [Py.for_each]. unfold Py.bind.
  destruct (body x s) as [[] s1 | e1 s1] eqn:E.
  - intros H. destruct (IH _ _ _ H) as (y & s0 & Hin & Hy).
    exists y, s0. split; [now right | exact Hy].
  - intros [= <- <-]. exists x, s. split; [now left | exact E].
Qed.

(** X12. When [step] raises [EarlyStopException(task, loss, state_dict)],
    [task] is one of the scored tasks and a tracked target whose counter
    has reached its patience, [loss] is its recorded best, [state_dict] is
    the snapshot saved during this call or the one stored before it, and
    the snapshot file is gone afterwards. *)
Theorem early_stop_payload (scores : list (string * Py.num)) (model : St)
    self task loss sd s' :
  TaskScheduler.step scores model self
  = Py.Raise (Py.EarlyStopException task loss sd) s' ->
  In task (map fst scores)
  /\ TaskScheduler.fid s' = None
  /\ (sd = model \/ TaskScheduler.fid self = Some sd)
  /\ exists td',
      TaskScheduler.tasks s' !! task = Some td'
      /\ TData.is_target td' = true
      /\ TData.best td' = loss
      /\ TaskScheduler.exhausted s' td' = true.
Proof.
  intros Hrun.
  assert (Hsd : sd = model \/ TaskScheduler.fid self = Some sd).
  { pose proof (for_each_invariant
                  (fun s => TaskScheduler.fid s = TaskScheduler.fid self
                            \/ TaskScheduler.fid s = Some model)
                  (fun e => match e with
                            | Py.EarlyStopException _ _ sd0 =>
                                sd0 = model \/ TaskScheduler.fid self = Some sd0
                            | _ => True
                            end)
                  (fun _ => True)
                  (TaskScheduler.step_task model)) as Hinv.
    specialize (Hinv
      (fun item s _ HP =>
         ltac:(destruct item as [task0 score];
               destruct (TaskScheduler.step_task model (task0, score) s)
                 as [[] s1 | e s1] eqn:E;
               [ apply step_task_ok in E
                   as [[_ ->] | (tdk & b & td' & _ & _ & _ & _ & _ & ->)];
                 [exact HP | destruct (b && TData.is_target tdk); [now right | exact HP]]
               | destruct e; try exact I;
                 apply step_task_early_stop in E as (_ & _ & [-> | Hs] & _);
                 [now left | destruct HP as [HP | HP]; rewrite HP in Hs;
                             [now right | left; congruence]] ]))
      scores self (Forall_true _ _ (fun _ => I)) (or_introl eq_refl)).
    unfold TaskScheduler.step in Hrun. rewrite Hrun in Hinv. exact Hinv. }
  destruct (for_each_raise _ _ _ _ _ Hrun) as ([task0 score] & s0 & Hin & Hraise).
  apply step_task_early_stop in Hraise as (-> & Hfid & _ & Htd).
  split; [apply (in_map fst _ _ Hin) |]. auto.
Qed.

(** X13. When a score improves on the best of the target, [step] saves
    the state dict of the model of that call as the snapshot and sets the
    counter to zero; with a positive patience it returns normally, and
    with a patience of zero or less it raises [EarlyStopException] at
    once, carrying that score and that snapshot. *)
Theorem target_improvement_saves_snapshot (model : St) self task td score :
  TaskScheduler.tasks self !! task = Some td ->
  TData.is_target td = true ->
  TaskScheduler.improves td
    (Py.get (TData.threshold td) (TaskScheduler.threshold self)) score
  = Some true ->
  let p := Py.get (TData.patience td) (TaskScheduler.patience self) in
  (0 < p ->
   exists s', TaskScheduler.step [(task, score)] model self = Py.Ok tt s'
              /\ TaskScheduler.fid s' = Some model
              /\ TaskScheduler.tasks s' !! task = Some (TData.improved score td))
  /\ (p <= 0 ->
      exists s', TaskScheduler.step [(task, score)] model self
                 = Py.Raise (Py.EarlyStopException task score model) s'
                 /\ TaskScheduler.fid s' = None).
Proof.
  intros H Htg Hi p. rewrite step_single.
  rewrite (step_task_tracked _ _ _ _ _ _ H Hi). cbn zeta.
  unfold TaskScheduler.exhausted. cbn. fold p. rewrite Htg. cbn. split.
  - intros Hp. destruct (Z.leb_spec p 0); [lia |].
    eexists. split; [reflexivity |]. split; [reflexivity |].
    cbn. apply lookup_insert_eq.
  - intros Hp. destruct (Z.leb_spec p 0); [| lia].
    eexists. split; reflexivity.
Qed.

Lemma step_task_lookup_back model item self t td' :
  TaskScheduler.tasks (Py.final (TaskScheduler.step_task model item self)) !! t
  = Some td' ->
  exists td, TaskScheduler.tasks self !! t = Some td /\ TData.same_config td td'.
Proof.
  intros H'. destruct (TaskScheduler.tasks self !! t) as [td |] eqn:Ht.
  - destruct (step_task_effect model item self t td Ht) as (_ & td2 & H2 & Hcfg & _).
    rewrite H2 in H'. injection H' as <-. eauto.
  - destruct item as [task score].
    destruct (step_task_tasks model task score self)
      as [E | (tdk & td2 & Hk & E)]; rewrite E in H'.
    + congruence.
    + rewrite lookup_insert_ne in H' by congruence. congruence.
Qed.

(** The loop body on a task that is not the target. *)
Lemma step_task_auxiliary model task score self :
  (forall td, TaskScheduler.tasks self !! task = Some td ->
              TData.is_target td = false) ->
  let r := TaskScheduler.step_task model (task, score) self in
  TaskScheduler.fid (Py.final r) = TaskScheduler.fid self
  /\ forall e s', r = Py.Raise e s' -> e = Py.ValueError "Wrong mode value".
Proof.
  intros Haux r. subst r.
  destruct (TaskScheduler.tasks self !! task) as [tdk |] eqn:Hk.
  2:{ rewrite (step_task_untracked _ _ _ _ Hk). split; [reflexivity | discriminate]. }
  destruct (TaskScheduler.improves tdk
              (Py.get (TData.threshold tdk) (TaskScheduler.threshold self)) score)
    as [b |] eqn:Hi.
  2:{ rewrite (step_task_wrong_mode _ _ _ _ _ Hk Hi).
      split; [reflexivity | intros e s' [= <- _]; reflexivity]. }
  rewrite (step_task_tracked _ _ _ _ _ _ Hk Hi). cbn zeta.
  rewrite (Haux tdk eq_refl), andb_false_r.
  destruct (TaskScheduler.exhausted self (TData.scored b score tdk));
    split; try reflexivity; discriminate.
Qed.

(** X14. Scores of tasks other than the target never stop the training
    and never touch the snapshot: a [step] call in which no scored task is
    a target leaves the snapshot file as it was, and the only exception it
    can raise is the error of a wrong mode. *)
Theorem auxiliary_scores_never_stop (scores : list (string * Py.num))
    (model : St) self :
  Forall (fun item => forall td, TaskScheduler.tasks self !! fst item = Some td ->
                                 TData.is_target td = false) scores ->
  TaskScheduler.fid (Py.final (TaskScheduler.step scores model self))
  = TaskScheduler.fid self
  /\ forall e s', TaskScheduler.step scores model self = Py.Raise e s' ->
                  e = Py.ValueError "Wrong mode value".
Proof.
  revert self. induction scores as [| [task score] scores IH]; intros self Hall.
  - split; [reflexivity | discriminate].
  - apply Forall_cons in Hall as [Hx Hall].
    destruct (step_task_auxiliary model task score self Hx) as [Hfid Hraise].
    unfold TaskScheduler.step. cbn [Py.for_each]. unfold Py.bind.
    destruct (TaskScheduler.step_task model (task, score) self)
      as [[] s1 | e s1] eqn:E.
    + cbn [Py.final] in Hfid.
      destruct (IH s1) as [Hfid2 Hraise2].
      * eapply Forall_impl; [exact Hall |]. intros item Hitem td1 H1. cbn in Hitem.
        assert (H1' : TaskScheduler.tasks
                        (Py.final (TaskScheduler.step_task model (task, score) self))
                      !! fst item = Some td1) by (now rewrite E).
        apply step_task_lookup_back in H1' as (td0 & H0 & Hcfg).
        destruct Hcfg as (_ & _ & _ & _ & Ht & _).
        unfold TData.is_target. rewrite Ht. exact (Hitem td0 H0).
      * split; [now rewrite <- Hfid | exact Hraise2].
    + split; [exact Hfid |]. intros e' s' [= <- <-]. eauto.
Qed.

Lemma lt_trans (x y z : Py.num) : Py.lt x y -> Py.lt y z -> Py.lt x z.
Proof. destruct x, y, z; cbn; try tauto. intros. lra. Qed.

Lemma le_trans (x y z : Py.num) : Py.le x y -> Py.le y z -> Py.le x z.
Proof.
  intros [-> | H1] [-> | H2]; try (now left); try (now right).
  right. eapply lt_trans; eassumption.
Qed.

Lemma lt_add (x y : Py.num) (thr : Q) :
  (0 <= thr)%Q -> Py.lt (Py.add x thr) y -> Py.lt x y.
Proof. destruct x, y; cbn; try tauto. intros. lra. Qed.

Lemma lt_sub (x y : Py.num) (thr : Q) :
  (0 <= thr)%Q -> Py.lt y (Py.sub x thr) -> Py.lt y x.
Proof. destruct x, y; cbn; try tauto. intros. lra. Qed.

(** What one run of the loop body does to the best of any tracked task:
    it stays, or it becomes a score that [is_best] accepted. *)
Lemma step_task_best model item self t td :
  TaskScheduler.tasks self !! t = Some td ->
  exists td',
    TaskScheduler.tasks (Py.final (TaskScheduler.step_task model item self)) !! t
    = Some td'
    /\ (TData.best td' = TData.best td
        \/ TaskScheduler.improves td
             (Py.get (TData.threshold td) (TaskScheduler.threshold self))
             (TData.best td') = Some true).
Proof.
  intros H. destruct item as [task score].
  destruct (TaskScheduler.tasks self !! task) as [tdk |] eqn:Hk.
  2:{ rewrite (step_task_untracked _ _ _ _ Hk). eauto. }
  destruct (TaskScheduler.improves tdk
              (Py.get (TData.threshold tdk) (TaskScheduler.threshold self)) score)
    as [b |] eqn:Hi.
  2:{ rewrite (step_task_wrong_mode _ _ _ _ _ Hk Hi). eauto. }
  rewrite (step_task_tracked _ _ _ _ _ _ Hk Hi). cbn zeta.
  assert (Hb : TData.best (TData.scored b score tdk) = TData.best tdk
               \/ TaskScheduler.improves tdk
                    (Py.get (TData.threshold tdk) (TaskScheduler.threshold self))
                    (TData.best (TData.scored b score tdk)) = Some true)
    by (destruct b; [right; exact Hi | now left]).
  destruct (TaskScheduler.exhausted self (TData.scored b score tdk));
    [destruct (TData.is_target tdk);
     [cbn [TaskScheduler.fid];
      destruct (if b && true then Some model else TaskScheduler.fid self) |] |];
    cbn;
    (destruct (decide (t = task)) as [-> | Hne];
     [ rewrite ?lookup_insert_eq; rewrite H in Hk; injection Hk as <-;
       eexists; split; [reflexivity | exact Hb]
     | rewrite ?lookup_insert_ne by congruence; eauto ]).
Qed.

(** X15. With a threshold that is not negative, the recorded best of a
    task only moves in the direction of its mode: over any sequence of
    [step] calls it never decreases for mode max and never increases for
    mode min. *)
Theorem best_only_improves (calls : list (list (string * Py.num) * St))
    self t td :
  TaskScheduler.tasks self !! t = Some td ->
  (0 <= Py.get (TData.threshold td) (TaskScheduler.threshold self))%Q ->
  exists td',
    TaskScheduler.tasks (TaskScheduler.run_calls calls self) !! t = Some td'
    /\ (Py.lower (TData.mode td) = "max" -> Py.le (TData.best td) (TData.best td'))
    /\ (Py.lower (TData.mode td) = "min" -> Py.le (TData.best td') (TData.best td)).
Proof.
  intros H Hthr.
  set (thr := Py.get (TData.threshold td) (TaskScheduler.threshold self)) in *.
  assert (Hinv : exists td',
             TaskScheduler.tasks (TaskScheduler.run_calls calls self) !! t = Some td'
             /\ TData.mode td' = TData.mode td
             /\ Py.get (TData.threshold td')
                       (TaskScheduler.threshold (TaskScheduler.run_calls calls self))
                = thr
             /\ (Py.lower (TData.mode td) = "max" ->
                 Py.le (TData.best td) (TData.best td'))
             /\ (Py.lower (TData.mode td) = "min" ->
                 Py.le (TData.best td') (TData.best td))).
  { apply (run_calls_invariant
             (fun s => exists td',
                  TaskScheduler.tasks s !! t = Some td'
                  /\ TData.mode td' = TData.mode td
                  /\ Py.get (TData.threshold td') (TaskScheduler.threshold s) = thr
                  /\ (Py.lower (TData.mode td) = "max" ->
                      Py.le (TData.best td) (TData.best td'))
                  /\ (Py.lower (TData.mode td) = "min" ->
                      Py.le (TData.best td') (TData.best td)))).
    2:{ exists td. split; [exact H |]. split; [reflexivity |].
        split; [reflexivity |]. split; intros _; now left. }
    intros model item s (td1 & H1 & Hm1 & Ht1 & Hmax & Hmin).
    destruct (step_task_effect model item s t td1 H1)
      as ((_ & _ & Hth & _) & td2 & H2 & Hcfg & _).
    destruct (step_task_best model item s t td1 H1) as (td2' & H2' & Hb).
    rewrite H2 in H2'. injection H2' as <-.
    destruct Hcfg as (_ & Hct & _ & _ & _ & Hcm).
    exists td2. split; [exact H2 |]. split; [congruence |].
    split; [now rewrite Hct, Hth |].
    rewrite Ht1 in Hb. unfold TaskScheduler.improves in Hb. rewrite Hm1 in Hb.
    split.
    - intros Emax. specialize (Hmax Emax).
      destruct Hb as [-> | Hb]; [exact Hmax |].
      rewrite Emax in Hb. cbn in Hb. injection Hb as Hb.
      apply ltb_lt in Hb. eapply le_trans; [exact Hmax |].
      right. eapply lt_add; eassumption.
    - intros Emin. specialize (Hmin Emin).
      destruct Hb as [-> | Hb]; [exact Hmin |].
      rewrite Emin in Hb. cbn in Hb. injection Hb as Hb.
      apply ltb_lt in Hb. eapply le_trans; [| exact Hmin].
      right. eapply lt_sub; eassumption. }
  destruct Hinv as (td' & H' & _ & _ & Hmax & Hmin). eauto.
Qed.

Lemma max_lt (a b : Q) : (a < b)%Q -> Py.max a b = b.
Proof. intros H. unfold Py.max. apply Qltb_lt in H. now rewrite H. Qed.

Lemma max_ge (a b : Q) : (b <= a)%Q -> Py.max a b = a.
Proof. intros H. unfold Py.max. apply Qltb_ge in H. now rewrite H. Qed.

Lemma max_Qeq (a a' b : Q) : (a == a')%Q -> (Py.max a b == Py.max a' b)%Q.
Proof.
  intros E. destruct (Qlt_le_dec a b) as [H | H].
  - rewrite (max_lt a b H), (max_lt a' b) by lra. reflexivity.
  - rewrite (max_ge a b H), (max_ge a' b) by lra. exact E.
Qed.

(** Shrinking [n] times with the floor applied every time is the floor
    applied once to the weight multiplied [n] times by the factor. *)
Lemma iterated_shrink (f m w : Q) (n : nat) :
  (0 <= f <= 1)%Q -> (0 <= m <= w)%Q ->
  (Nat.iter n (fun x => Py.max (x * f) m) w
   == Py.max (Nat.iter n (fun x => x * f) w) m)%Q
  /\ (0 <= Nat.iter n (fun x => x * f)%Q w)%Q.
Proof.
  intros Hf Hm. induction n as [| n [IH Hpos]].
  - cbn. rewrite max_ge by lra. split; [reflexivity | lra].
  - rewrite !Nat.iter_succ. set (a := Nat.iter n (fun x => (x * f)%Q) w) in *.
    split; [| nra].
    rewrite (max_Qeq _ (Py.max a m * f) m) by (now rewrite IH).
    destruct (Qlt_le_dec a m) as [H | H].
    + rewrite (max_lt a m H).
      destruct (Qlt_le_dec (m * f) m) as [H1 | H1].
      * rewrite (max_lt _ _ H1), (max_lt (a * f) m) by nra. reflexivity.
      * rewrite (max_ge _ _ H1), (max_lt (a * f) m) by nra. nra.
    + rewrite (max_ge a m H). reflexivity.
Qed.

(** X16. Geometric decay to the floor: for a task that is not the target,
    with a factor in [0, 1] and a minimal weight between 0 and its weight,
    once the counter is within one step of the patience, [n] evaluations
    in a row without improvement leave the weight at
    [max(weight * factor^n, min_weight)]. *)
Theorem stuck_weight_decays_geometrically (model : St) self task td
    (values : list Py.num) :
  TaskScheduler.tasks self !! task = Some td ->
  TData.is_target td = false ->
  let p := Py.get (TData.patience td) (TaskScheduler.patience self) in
  let thr := Py.get (TData.threshold td) (TaskScheduler.threshold self) in
  let f := Py.get (TData.factor td) (TaskScheduler.factor self) in
  let m := Py.get (TData.min_weight td) (TaskScheduler.min_weight self) in
  (p <= TData.steps td + 1)%Z ->
  Forall (fun v => TaskScheduler.improves td thr v = Some false) values ->
  (0 <= f <= 1)%Q -> (0 <= m <= TData.weight td)%Q ->
  exists td',
    TaskScheduler.tasks (TaskScheduler.evaluations task values model self) !! task
    = Some td'
    /\ (TData.weight td'
        == Py.max (Nat.iter (length values) (fun x => x * f) (TData.weight td)) m)%Q.
Proof.
  intros H Htg p thr f m Hp Hall Hf Hm.
  destruct (stuck_evaluations model task p thr f m values self td H Htg
              eq_refl eq_refl eq_refl eq_refl Hp Hall) as (td' & H' & _ & Hw).
  exists td'. split; [exact H' |]. rewrite Hw.
  apply (iterated_shrink f m (TData.weight td) (length values) Hf Hm).
Qed.

End SchedulerMore.

(* ===================================================================== *)
(** * Further properties of the delay wrapper                             *)
(* ===================================================================== *)

Section DelayerMore.
Context {B : Type} (base_step : option Py.num -> B -> B).

Lemma delayer_step_not_waiting (a : option Py.num)
    (s : DelayerScheduler.t B) :
  DelayerScheduler.waiting s = false ->
  DelayerScheduler.step base_step a s
  = DelayerScheduler.Make (DelayerScheduler.nb_steps s + 1)
      (DelayerScheduler.delay s)
      (base_step a (DelayerScheduler.base_scheduler s)).
Proof.
  unfold DelayerScheduler.waiting, DelayerScheduler.step, DelayerScheduler.steps.
  intros Hw. apply Z.leb_gt in Hw. cbn.
  destruct (Z.ltb_spec (DelayerScheduler.delay s) (DelayerScheduler.nb_steps s + 1));
    [reflexivity | lia].
Qed.

Lemma delayer_never_waits_again_aux (calls : list (option Py.num))
    (s : DelayerScheduler.t B) :
  DelayerScheduler.waiting s = false ->
  DelayerScheduler.waiting (DelayerScheduler.steps_run base_step calls s) = false
  /\ DelayerScheduler.base_scheduler (DelayerScheduler.steps_run base_step calls s)
     = DelayerScheduler.base_run base_step calls (DelayerScheduler.base_scheduler s)
  /\ DelayerScheduler.delay (DelayerScheduler.steps_run base_step calls s)
     = DelayerScheduler.delay s.
Proof.
  revert s. induction calls as [| a calls IH]; intros s Hw.
  - auto.
  - change (DelayerScheduler.steps_run base_step (a :: calls) s)
      with (DelayerScheduler.steps_run base_step calls
              (DelayerScheduler.step base_step a s)).
    rewrite (delayer_step_not_waiting a s Hw).
    set (s1 := DelayerScheduler.Make (DelayerScheduler.nb_steps s + 1)
                 (DelayerScheduler.delay s)
                 (base_step a (DelayerScheduler.base_scheduler s))).
    assert (Hw1 : DelayerScheduler.waiting s1 = false).
    { unfold DelayerScheduler.waiting, DelayerScheduler.steps in *. cbn.
      apply Z.leb_gt in Hw. apply Z.leb_gt. lia. }
    destruct (IH s1 Hw1) as (H1 & H2 & H3).
    split; [exact H1 |]. split; [exact H2 | exact H3].
Qed.

(** X17. Once [waiting] is false it stays false, and from then on every
    [step] call is forwarded to the base scheduler, in order and with its
    arguments. *)
Theorem delayer_never_waits_again (calls : list (option Py.num))
    (s : DelayerScheduler.t B) :
  DelayerScheduler.waiting s = false ->
  DelayerScheduler.waiting (DelayerScheduler.steps_run base_step calls s) = false
  /\ DelayerScheduler.base_scheduler (DelayerScheduler.steps_run base_step calls s)
     = DelayerScheduler.base_run base_step calls (DelayerScheduler.base_scheduler s).
Proof.
  intros Hw. destruct (delayer_never_waits_again_aux calls s Hw) as (H1 & H2 & _).
  split; assumption.
Qed.

(** X18. A delayer built with a negative delay never waits: the initial
    step of the constructor is already forwarded to the base scheduler,
    without a metric, and so is every later call. *)
Theorem delayer_negative_delay (d : Z) (b0 : B) (calls : list (option Py.num)) :
  d < 0 ->
  let s := DelayerScheduler.steps_run base_step calls
             (DelayerScheduler.init base_step d b0) in
  DelayerScheduler.waiting s = false
  /\ DelayerScheduler.base_scheduler s
     = DelayerScheduler.base_run base_step (None :: calls) b0.
Proof.
  intros Hd s. subst s.
  assert (Hinit : DelayerScheduler.init base_step d b0
                  = DelayerScheduler.Make 0 d (base_step None b0)).
  { unfold DelayerScheduler.init, DelayerScheduler.step, DelayerScheduler.steps.
    cbn. change (-1 + 1) with 0.
    destruct (Z.ltb_spec d 0); [reflexivity | lia]. }
  rewrite Hinit.
  assert (Hw : DelayerScheduler.waiting
                 (DelayerScheduler.Make 0 d (base_step None b0)) = false).
  { unfold DelayerScheduler.waiting, DelayerScheduler.steps. cbn.
    apply Z.leb_gt. lia. }
  destruct (delayer_never_waits_again_aux calls _ Hw) as (H1 & H2 & _).
  split; [exact H1 | exact H2].
Qed.

End DelayerMore.

(* ===================================================================== *)
(** * Further properties of the trainer                                   *)
(* ===================================================================== *)

Section EvaluateFacts.

Lemma dict_get_set_eq {A} (k : string) (v : A) (d : list (string * A)) :
  dict_get k (dict_set k v d) = Some v.
Proof.
  induction d as [| [k' v'] d IH]; cbn.
  - now rewrite String.eqb_refl.
  - destruct (String.eqb_spec k' k) as [-> | Hne]; cbn.
    + now rewrite String.eqb_refl.
    + destruct (String.eqb_spec k' k); [contradiction | exact IH].
Qed.

Lemma dict_get_set_ne {A} (k k' : string) (v : A) (d : list (string * A)) :
  k <> k' -> dict_get k' (dict_set k v d) = dict_get k' d.
Proof.
  intros Hne. induction d as [| [k0 v0] d IH]; cbn.
  - destruct (String.eqb_spec k k'); [contradiction | reflexivity].
  - destruct (String.eqb_spec k0 k) as [-> | H0]; cbn.
    + destruct (String.eqb_spec k k'); [contradiction | reflexivity].
    + destruct (String.eqb_spec k0 k'); [reflexivity | exact IH].
Qed.

Lemma dict_get_map_values {A C} (g : A -> C) (k : string) (d : list (string * A)) :
  dict_get k (map (fun kv => (fst kv, g (snd kv))) d) = g <$> dict_get k d.
Proof.
  induction d as [| [k' v'] d IH]; cbn; [reflexivity |].
  destruct (String.eqb k' k); [reflexivity | exact IH].
Qed.

(** The entry of key [k] after the items of one batch were added. *)
Lemma add_items_key (k : string) (items : list (string * Q)) :
  forall acc : list (string * Q),
    let acc' := fold_left (fun acc kv => dict_add (fst kv) (snd kv) acc) items acc in
    (Py.get (dict_get k acc') 0 == Py.get (dict_get k acc) 0 + key_sum k items)%Q
    /\ (is_Some (dict_get k acc')
        <-> is_Some (dict_get k acc) \/ In k (map fst items)).
Proof.
  induction items as [| [k0 v0] items IH]; intros acc acc'; subst acc'.
  - cbn. split; [ring | tauto].
  - cbn [fold_left fst snd map In key_sum fold_right].
    destruct (IH (dict_add k0 v0 acc)) as [Hv Hs]. unfold dict_add in *.
    destruct (String.eqb_spec k0 k) as [-> | Hne].
    + rewrite dict_get_set_eq in Hv, Hs. cbn in Hv. split.
      * rewrite Hv. fold (key_sum k items). ring.
      * rewrite Hs. split; [tauto | intros _; left; eauto].
    + rewrite (dict_get_set_ne k0 k) in Hv, Hs by exact Hne. split.
      * rewrite Hv. reflexivity.
      * rewrite Hs. split; [tauto | intros [? | [? | ?]]; tauto].
Qed.

Lemma add_batches_key (k : string) (batch_losses : list (list (string * Q))) :
  forall acc : list (string * Q),
    let acc' :=
      fold_left
        (fun acc items =>
           fold_left (fun acc kv => dict_add (fst kv) (snd kv) acc) items acc)
        batch_losses acc in
    (Py.get (dict_get k acc') 0
     == Py.get (dict_get k acc) 0
        + fold_right (fun items s => key_sum k items + s) 0 batch_losses)%Q
    /\ (is_Some (dict_get k acc')
        <-> is_Some (dict_get k acc)
            \/ Exists (fun items => In k (map fst items)) batch_losses).
Proof.
  induction batch_losses as [| items bl IH]; intros acc acc'; subst acc'.
  - cbn. split; [ring |]. rewrite Exists_nil. tauto.
  - cbn [fold_left fold_right].
    destruct (IH (fold_left (fun acc kv => dict_add (fst kv) (snd kv) acc) items acc))
      as [Hv Hs].
    destruct (add_items_key k items acc) as [Hv1 Hs1].
    split.
    + rewrite Hv, Hv1. ring.
    + rewrite Hs, Hs1, Exists_cons. tauto.
Qed.

(** X19. [Trainer.evaluate] returns a loss for exactly the keys that occur
    in the losses of some batch, and the loss of a key is the sum of its
    values over all batches divided by the number of all batches, also
    those in which the key does not occur; on a dataset without batches it
    returns the empty dict and divides by nothing. *)
Theorem evaluate_losses_mean (batch_losses : list (list (string * Q)))
    (k : string) :
  evaluate_losses [] = []
  /\ (dict_get k (evaluate_losses batch_losses) = None
      <-> ~ Exists (fun items => In k (map fst items)) batch_losses)
  /\ (forall v, dict_get k (evaluate_losses batch_losses) = Some v ->
                (v == fold_right (fun items s => key_sum k items + s) 0 batch_losses
                      / inject_Z (Z.of_nat (length batch_losses)))%Q).
Proof.
  split; [reflexivity |]. unfold evaluate_losses.
  rewrite (dict_get_map_values
             (fun x => (x / inject_Z (Z.of_nat (length batch_losses)))%Q)).
  destruct (add_batches_key k batch_losses []) as [Hv Hs]. cbn zeta in Hv, Hs.
  cbn [dict_get] in Hv, Hs.
  set (total := fold_left _ batch_losses []) in *.
  split.
  - rewrite fmap_None, eq_None_not_Some, Hs.
    split; [intros H1 H2; apply H1; now right | intros H1 [[x [=]] | H2]; tauto].
  - intros v Hget. destruct (dict_get k total) as [x |]; [| discriminate].
    cbn in Hget. injection Hget as <-. cbn in Hv. rewrite Hv.
    cbn. field_simplify_eq; [reflexivity |].
    intros E. destruct batch_losses as [| b bl].
    + cbn in total. subst total. destruct Hs as [Hs _].
      destruct Hs as [[y [=]] | Hex]; [eauto |]. now apply Exists_nil in Hex.
    + unfold Qeq, inject_Z in E. cbn [Qnum Qden length] in E. lia.
Qed.

End EvaluateFacts.

Section TrainerMore.
Context {St Mdl B Batch Dev : Type}.
Variable model_tasks : list Task.t.
Variable random : Mdl -> Q * Mdl.
Variable model_loss : Mdl -> Batch -> string -> list (string * Q).
Variable optimize : Q -> option Q -> B -> Mdl -> Mdl.
Variable evaluate : Mdl -> Dev -> list (string * Q).
Variable accuracies : Mdl -> Dev -> list (string * Q).
Variable state_dict : Mdl -> St.
Variable load_state_dict : St -> Mdl -> Mdl.
Variable known_optimizer : string -> bool.
Variable new_optimizer : Settings.t -> Mdl -> option (Py.exn St).
Variable base_init : lr_kind -> Settings.t -> Py.exn St + B.
Variable base_step : lr_kind -> option Py.num -> B -> B.

Local Abbreviation trainer := (Trainer.t St Mdl B Batch).
Local Abbreviation train_batch :=
  (Trainer.train_batch model_tasks random model_loss optimize evaluate
     accuracies state_dict base_step).
Local Abbreviation train_batches :=
  (Trainer.train_batches model_tasks random model_loss optimize evaluate
     accuracies state_dict base_step).
Local Abbreviation train_epoch :=
  (Trainer.train_epoch model_tasks random model_loss optimize evaluate
     accuracies state_dict base_step).
Local Abbreviation epochs_loop :=
  (Trainer.epochs_loop model_tasks random model_loss optimize evaluate
     accuracies state_dict base_step).
Local Abbreviation train_epochs :=
  (Trainer.train_epochs model_tasks random model_loss optimize evaluate
     accuracies state_dict load_state_dict base_step).
Local Abbreviation run_check :=
  (Trainer.run_check (Batch:=Batch) evaluate accuracies state_dict base_step).
Local Abbreviation init := (Trainer.init (St:=St) known_optimizer new_optimizer base_init base_step).
Local Abbreviation step_lr_scheduler :=
  (Trainer.step_lr_scheduler (St:=St) (Mdl:=Mdl) (Batch:=Batch) base_step).

Lemma first_target_exists (tasks : list Task.t) :
  first_target tasks <> None
  <-> Exists (fun t => truthy (Task.target t) = true) tasks.
Proof.
  induction tasks as [| t tasks IH]; cbn.
  - rewrite Exists_nil. tauto.
  - rewrite Exists_cons. destruct (truthy (Task.target t)).
    + split; [now left | discriminate].
    + rewrite IH. split; [now right | intros [[=] | H]; exact H].
Qed.

(** X20. The constructor of the trainer succeeds exactly when some task
    is marked as target, [get_optimizer] finds the optimizer name and the
    call of what it found raises nothing, the batch size is not zero, the
    scheduler name is one of the three known ones and torch constructs
    that scheduler. With a target, an optimizer name that is not found
    raises [TypeError] (the call of [None]) before anything else, an
    exception of the call of the optimizer comes next, and a zero batch
    size raises [ZeroDivisionError] before the scheduler name is looked
    at. *)
Theorem trainer_init_succeeds_iff (settings : Settings.t) (mdl : Mdl)
    (bsize : Z) (bs : list Batch) (num_instances : Z) :
  ((exists tr : trainer, init settings mdl bsize bs num_instances = inr tr)
   <-> Exists (fun t => truthy (Task.target t) = true) (Settings.tasks settings)
       /\ known_optimizer (Settings.optimizer settings) = true
       /\ new_optimizer settings mdl = None
       /\ bsize <> 0
       /\ exists kind base,
           Trainer.get_scheduler (St:=St) settings = inr kind
           /\ base_init kind settings = inr base)
  /\ (Exists (fun t => truthy (Task.target t) = true) (Settings.tasks settings) ->
      known_optimizer (Settings.optimizer settings) = false ->
      init settings mdl bsize bs num_instances = inl Py.TypeError)
  /\ (Exists (fun t => truthy (Task.target t) = true) (Settings.tasks settings) ->
      known_optimizer (Settings.optimizer settings) = true ->
      forall e, new_optimizer settings mdl = Some e ->
                init settings mdl bsize bs num_instances = inl e)
  /\ (Exists (fun t => truthy (Task.target t) = true) (Settings.tasks settings) ->
      known_optimizer (Settings.optimizer settings) = true ->
      new_optimizer settings mdl = None ->
      bsize = 0 ->
      init settings mdl bsize bs num_instances = inl Py.ZeroDivisionError).
Proof.
  unfold Trainer.init, get_target_task.
  rewrite <- first_target_exists.
  destruct (first_target (Settings.tasks settings)) as [tgt |].
  2:{ split; [split; [intros [tr E]; discriminate E
                     | intros (H & _); congruence] |].
      repeat split; intros H; congruence. }
  destruct (known_optimizer (Settings.optimizer settings)); cbn [negb].
  2:{ split; [split; [intros [tr E]; discriminate E
                     | intros (_ & E & _); discriminate E] |].
      split; [reflexivity |].
      split; [intros _ E; discriminate E | intros _ E; discriminate E]. }
  destruct (new_optimizer settings mdl) as [e0 |].
  { split; [split; [intros [tr E]; discriminate E
                   | intros (_ & _ & E & _); discriminate E] |].
    split; [intros _ E; discriminate E |].
    split; [intros _ _ e [= <-]; reflexivity | intros _ _ E; discriminate E]. }
  destruct (Z.eqb_spec bsize 0) as [-> | Hb].
  { split; [split; [intros [tr E]; discriminate E
                   | intros (_ & _ & _ & H & _); congruence] |].
    split; [intros _ E; discriminate E |].
    split; [intros _ _ e E; discriminate E | reflexivity]. }
  split.
  2:{ split; [intros _ E; discriminate E |].
      split; [intros _ _ e E; discriminate E | intros _ _ _ E; congruence]. }
  destruct (Trainer.get_scheduler settings) as [e | kind].
  { split; [intros [tr E]; discriminate E
           | intros (_ & _ & _ & _ & k & base & E & _); discriminate E]. }
  destruct (base_init kind settings) as [e | base] eqn:Ebase.
  - split; [intros [tr E]; discriminate E |].
    intros (_ & _ & _ & _ & k & base & [= <-] & E). congruence.
  - split; [intros _ | eauto].
    repeat split; try congruence. eauto.
Qed.

(** The argument [step_lr_scheduler] gives the scheduler for a loss. *)
Local Abbreviation lr_arg kind :=
  (fun loss : Py.num =>
     match kind with ReduceLROnPlateau => Some loss | _ => None end).

Lemma step_lr_scheduler_plain (kind : lr_kind) (losses : list Py.num) :
  forall (self : trainer) (b : B),
    Trainer.lr_scheduler self = Trainer.Plain kind b ->
    Trainer.lr_scheduler
      (fold_left (fun s l => step_lr_scheduler l s) losses self)
    = Trainer.Plain kind
        (DelayerScheduler.base_run (base_step kind) (map (lr_arg kind) losses) b).
Proof.
  induction losses as [| l losses IH]; intros self b H; [exact H |].
  cbn [fold_left map]. erewrite IH; [reflexivity |].
  unfold Trainer.step_lr_scheduler. rewrite H. cbn.
  destruct kind; reflexivity.
Qed.

Lemma step_lr_scheduler_delayed (kind : lr_kind) (losses : list Py.num) :
  forall (self : trainer) (d : DelayerScheduler.t B),
    Trainer.lr_scheduler self = Trainer.Delayed kind d ->
    Trainer.lr_scheduler
      (fold_left (fun s l => step_lr_scheduler l s) losses self)
    = Trainer.Delayed kind
        (DelayerScheduler.steps_run (base_step kind) (map (lr_arg kind) losses) d).
Proof.
  induction losses as [| l losses IH]; intros self d H; [exact H |].
  cbn [fold_left map]. erewrite IH; [reflexivity |].
  unfold Trainer.step_lr_scheduler. rewrite H. cbn.
  destruct kind; reflexivity.
Qed.

(** X21. In a constructed trainer, the scheduler of torch is stepped by
    every check except the first [lr_delayed] ones (by every check when
    [lr_delayed] is not positive), in order, with the target score as its
    metric when it is [ReduceLROnPlateau] and without a metric otherwise. *)
Theorem lr_schedule_after_checks (settings : Settings.t) (mdl : Mdl)
    (bsize : Z) (bs : list Batch) (num_instances : Z) (tr : trainer)
    (losses : list Py.num) :
  init settings mdl bsize bs num_instances = inr tr ->
  exists kind base,
    Trainer.get_scheduler (St:=St) settings = inr kind
    /\ base_init kind settings = inr base
    /\ Trainer.lr_base
         (Trainer.lr_scheduler
            (fold_left (fun s l => step_lr_scheduler l s) losses tr))
       = DelayerScheduler.base_run (base_step kind)
           (skipn (Z.to_nat (Settings.lr_delayed settings))
              (map (fun loss => match kind with
                                | ReduceLROnPlateau => Some loss
                                | _ => None
                                end) losses))
           base.
Proof.
  unfold Trainer.init.
  destruct (get_target_task settings); [discriminate |].
  destruct (negb _); [discriminate |].
  destruct (new_optimizer settings mdl); [discriminate |].
  destruct (bsize =? 0)%Z; [discriminate |].
  destruct (Trainer.get_scheduler settings) as [e | kind]; [discriminate |].
  destruct (base_init kind settings) as [e | base] eqn:Ebase; [discriminate |].
  intros [= <-]. exists kind, base. split; [reflexivity |].
  split; [exact Ebase |].
  destruct (Z.ltb_spec 0 (Settings.lr_delayed settings)) as [Hd | Hd].
  - erewrite step_lr_scheduler_delayed by reflexivity.
    rewrite <- (Z2Nat.id (Settings.lr_delayed settings)) at 1 by lia.
    rewrite delayer_init.
    change 0 with (Z.of_nat 0). rewrite delayer_steps_run.
    cbn [Trainer.lr_base DelayerScheduler.base_scheduler].
    now rewrite Nat.sub_0_r.
  - erewrite step_lr_scheduler_plain by reflexivity.
    cbn [Trainer.lr_base].
    replace (Z.to_nat (Settings.lr_delayed settings)) with 0%nat by lia.
    reflexivity.
Qed.

Lemma train_batch_quiet (devset : option Dev) (b : Z) (batch : Batch)
    (scores : option (list (string * Py.num))) (self : trainer) :
  devset = None \/ 0 <= b < Trainer.check_freq self ->
  let r := train_batch devset b batch scores self in
  Trainer.task_scheduler (Py.final r) = Trainer.task_scheduler self
  /\ Trainer.check_freq (Py.final r) = Trainer.check_freq self
  /\ forall sc s, r = Py.Ok sc s -> sc = scores.
Proof.
  intros Hq r. subst r. unfold Trainer.train_batch.
  destruct (random (Trainer.model self)) as [u mdl1].
  destruct (get_batch_task model_tasks 2 u) as [e | task];
    [cbn; repeat split; discriminate |].
  destruct (model_loss mdl1 batch task) as [| kv loss];
    [cbn; repeat split; discriminate |].
  cbn [Trainer.report_freq Trainer.check_freq Trainer.set_model].
  destruct ((0 <? b)%Z && (Trainer.report_freq self =? 0)%Z);
    [cbn; repeat split; discriminate |].
  destruct ((0 <? Trainer.check_freq self)%Z && (0 <? b)%Z
            && (b mod Trainer.check_freq self =? 0)%Z) eqn:Echeck.
  - destruct Hq as [-> | Hb].
    + cbn. repeat split. intros sc s [= <- _]. reflexivity.
    + apply andb_prop in Echeck as [Ea Emod].
      apply andb_prop in Ea as [_ Epos].
      apply Z.ltb_lt in Epos. apply Z.eqb_eq in Emod.
      rewrite Z.mod_small in Emod by lia. lia.
  - cbn. repeat split. intros sc s [= <- _]. reflexivity.
Qed.

Lemma train_batches_quiet (devset : option Dev) (bs : list Batch) :
  forall (b : Z) (scores : option (list (string * Py.num))) (self : trainer),
    devset = None
    \/ (0 <= b /\ b + Z.of_nat (length bs) <= Trainer.check_freq self) ->
    let r := train_batches devset b bs scores self in
    Trainer.task_scheduler (Py.final r) = Trainer.task_scheduler self
    /\ forall sc s, r = Py.Ok sc s -> sc = scores.
Proof.
  induction bs as [| batch bs IH]; intros b scores self Hq r; subst r.
  - cbn. split; [reflexivity |]. intros sc s [= <- _]. reflexivity.
  - cbn [Trainer.train_batches]. unfold Py.bind.
    assert (Hq1 : devset = None \/ 0 <= b < Trainer.check_freq self)
      by (destruct Hq as [? | [? Hle]]; [now left | right; cbn [length] in Hle; lia]).
    destruct (train_batch_quiet devset b batch scores self Hq1)
      as (Hts & Hcf & Hsc).
    destruct (train_batch devset b batch scores self) as [sc1 s1 | e s1].
    + cbn in Hts, Hcf. rewrite (Hsc sc1 s1 eq_refl).
      destruct (IH (b + 1) scores s1) as (Hts2 & Hsc2).
      { destruct Hq as [? | [? Hle]]; [now left | right].
        cbn [length] in Hle. rewrite Hcf. lia. }
      split; [congruence | exact Hsc2].
    + cbn in *. split; [exact Hts | discriminate].
Qed.

(** X22. An epoch runs no evaluation when no dev set is given, and none
    when the dataset has no more batches than [check_freq] (the first
    batch never triggers a check): the task scheduler is left as it was
    and [train_epoch] returns no scores. *)
Theorem train_epoch_without_check (devset : option Dev) (epoch : Z)
    (self : trainer) :
  devset = None
  \/ Z.of_nat (length (Trainer.batches self)) <= Trainer.check_freq self ->
  let r := train_epoch devset epoch self in
  Trainer.task_scheduler (Py.final r) = Trainer.task_scheduler self
  /\ forall sc s, r = Py.Ok sc s -> sc = None.
Proof.
  intros Hq. apply (train_batches_quiet devset (Trainer.batches self) 0 None self).
  destruct Hq as [? | ?]; [now left | right; lia].
Qed.

(** The errors of [dev_scores_of] are [KeyError]s. *)
Lemma dev_scores_of_error (mdl : Mdl) (devset : Dev) (e : Py.exn St) :
  Trainer.dev_scores_of evaluate accuracies mdl devset = inl e ->
  exists k, e = Py.KeyError k.
Proof.
  unfold Trainer.dev_scores_of.
  destruct (dict_get "lm_fwd" _), (dict_get "lm_bwd" _);
    try discriminate; intros [= <-]; eauto.
Qed.

(** An [EarlyStopException] that leaves [train_batch] was raised by
    [TaskScheduler.step], and the scheduler of the trainer is in the state
    that call ended in. *)
Lemma train_batch_early_stop (devset : option Dev) (b : Z) (batch : Batch)
    (scores : option (list (string * Py.num))) (self s' : trainer)
    task loss sd :
  train_batch devset b batch scores self
  = Py.Raise (Py.EarlyStopException task loss sd) s' ->
  exists dev_scores model ts,
    TaskScheduler.step dev_scores model ts
    = Py.Raise (Py.EarlyStopException task loss sd) (Trainer.task_scheduler s').
Proof.
  unfold Trainer.train_batch.
  destruct (random (Trainer.model self)) as [u mdl1].
  destruct (get_batch_task model_tasks 2 u) as [e | t] eqn:Eb.
  { intros [= -> _]. rewrite get_batch_task_names in Eb.
    apply sample_task_exceptions in Eb as [Eb | [Eb | [msg Eb]]]; discriminate Eb. }
  destruct (model_loss mdl1 batch t) as [| kv l]; [discriminate |].
  destruct ((0 <? b)%Z && _); [discriminate |].
  destruct (_ && _); [| discriminate].
  destruct devset as [dev |]; [| discriminate].
  unfold Py.bind, Trainer.run_check.
  set (self1 := Trainer.set_model _ self).
  destruct (Trainer.dev_scores_of evaluate accuracies (Trainer.model self1) dev)
    as [e | ds] eqn:Ed.
  { intros [= -> _]. apply dev_scores_of_error in Ed as [k Ed]. discriminate Ed. }
  unfold Py.bind, Trainer.task_scheduler_step.
  destruct (TaskScheduler.step ds (state_dict (Trainer.model self1))
              (Trainer.task_scheduler self1)) as [[] ts | e ts] eqn:Es.
  - destruct (dict_get _ ds); cbn; discriminate.
  - intros [= -> <-]. cbn. eauto.
Qed.

Lemma train_batches_early_stop (devset : option Dev) (bs : list Batch) :
  forall (b : Z) (scores : option (list (string * Py.num))) (self s' : trainer)
         task loss sd,
    train_batches devset b bs scores self
    = Py.Raise (Py.EarlyStopException task loss sd) s' ->
    exists dev_scores model ts,
      TaskScheduler.step dev_scores model ts
      = Py.Raise (Py.EarlyStopException task loss sd) (Trainer.task_scheduler s').
Proof.
  induction bs as [| batch bs IH]; intros b scores self s' task loss sd;
    [discriminate |].
  cbn [Trainer.train_batches]. unfold Py.bind.
  destruct (train_batch devset b batch scores self) as [sc1 s1 | e s1] eqn:E.
  - apply IH.
  - intros [= -> ->]. eapply train_batch_early_stop. exact E.
Qed.

Lemma epochs_loop_early_stop (devset : option Dev) (todo : nat) :
  forall (epoch : Z) (self s' : trainer) task loss sd,
    epochs_loop devset epoch todo self
    = Py.Raise (Py.EarlyStopException task loss sd) s' ->
    exists dev_scores model ts,
      TaskScheduler.step dev_scores model ts
      = Py.Raise (Py.EarlyStopException task loss sd) (Trainer.task_scheduler s').
Proof.
  induction todo as [| todo IH]; intros epoch self s' task loss sd;
    [discriminate |].
  cbn [Trainer.epochs_loop]. unfold Py.bind, Trainer.train_epoch.
  destruct (train_batches devset 0 (Trainer.batches self) None self)
    as [sc1 s1 | e s1] eqn:E.
  - apply IH.
  - intros [= -> ->]. eapply train_batches_early_stop. exact E.
Qed.

(** X23. [train_epochs] never lets an [EarlyStopException] out, and when
    it returns a score map this is the single entry of a task that the
    scheduler tracks as a target, with the best score recorded for it; the
    snapshot file has been consumed. *)
Theorem train_epochs_early_stop_result (epochs : Z) (devset : option Dev)
    (self : trainer) :
  (forall task loss sd s',
      train_epochs epochs devset self
      <> Py.Raise (Py.EarlyStopException task loss sd) s')
  /\ (forall sc s',
        train_epochs epochs devset self = Py.Ok (Some sc) s' ->
        exists task loss td,
          sc = [(task, loss)]
          /\ TaskScheduler.tasks (Trainer.task_scheduler s') !! task = Some td
          /\ TData.is_target td = true
          /\ TData.best td = loss
          /\ TaskScheduler.fid (Trainer.task_scheduler s') = None).
Proof.
  unfold Trainer.train_epochs.
  destruct (epochs_loop devset 1 (Z.to_nat epochs) self) as [u s1 | e s1] eqn:E.
  - split; [discriminate | discriminate].
  - destruct e; try (split; [intros ? ? ? ? [=] | discriminate]).
    split; [discriminate |]. intros sc s' [= <- <-].
    apply epochs_loop_early_stop in E as (ds & model & ts & Hstep).
    destruct (for_each_raise _ _ _ _ _ Hstep) as ([task0 score] & s0 & _ & Hraise).
    apply step_task_early_stop in Hraise as (_ & Hfid & _ & td' & Htd & Htg & Hb & _).
    exists task, loss, td'. cbn. auto.
Qed.

(** X24. [weight_loss] counts a loss with weight 1 when its task is not
    tracked or has the weight 1: on such losses the combined loss is their
    plain sum. *)
Theorem weight_loss_unweighted (loss : list (string * Q)) (self : trainer) :
  Forall (fun kv =>
            Py.get (TaskScheduler.get_weights (Trainer.task_scheduler self)
                    !! fst kv) 1%Q = 1%Q) loss ->
  (Trainer.weight_loss loss self == Random.total (map snd loss))%Q.
Proof.
  unfold Trainer.weight_loss.
  set (w := TaskScheduler.get_weights (Trainer.task_scheduler self)).
  assert (Hgen : forall acc,
             Forall (fun kv => Py.get (w !! fst kv) 1%Q = 1%Q) loss ->
             (fold_left (fun acc kv => acc + Py.get (w !! fst kv) 1 * snd kv) loss acc
              == acc + Random.total (map snd loss))%Q).
  { induction loss as [| kv loss IH]; intros acc Hall.
    - cbn. ring.
    - apply Forall_cons in Hall as [Hkv Hall].
      cbn [fold_left map]. rewrite (IH _ Hall), Hkv, total_cons. ring. }
  intros Hall. rewrite (Hgen 0%Q Hall). ring.
Qed.

End TrainerMore.

(* ===================================================================== *)
(** * The further properties on the concrete configurations              *)
(* ===================================================================== *)

(** X7, on [Demo.settings_lm]. *)
Lemma init_lm_tasks_witness :
  Settings.include_lm Demo.settings_lm = true
  /\ Settings.tasks Demo.settings_lm <> []
  /\ ("lm_fwd" = "lm_fwd" \/ "lm_fwd" = "lm_bwd")
  /\ exists td,
      TaskScheduler.tasks (TaskScheduler.init (St:=nat) Demo.settings_lm) !! "lm_fwd"
      = Some td
      /\ td = TaskScheduler.init_tdata (Settings.lm_schedule Demo.settings_lm, None)
      /\ TData.is_target td = false.
Proof.
  assert (H1 : Settings.include_lm Demo.settings_lm = true) by reflexivity.
  assert (H2 : Settings.tasks Demo.settings_lm <> []) by discriminate.
  assert (H3 : "lm_fwd" = "lm_fwd" \/ "lm_fwd" = "lm_bwd") by (left; reflexivity).
  repeat (split; [assumption |]).
  exact (init_lm_tasks (St:=nat) Demo.settings_lm "lm_fwd" H1 H2 H3).
Defined.

(** X8, on [Demo.settings]. *)
Lemma init_last_task_wins_witness :
  Settings.include_lm Demo.settings = false
  /\ TaskScheduler.tasks (TaskScheduler.init (St:=nat) Demo.settings) !! "pos"
     = (fun task =>
          TaskScheduler.init_tdata
            (Py.get (Task.schedule task) Schedule.empty,
             Some (Py.get (Task.target task) false)))
         <$> List.find (fun task => String.eqb (Task.name task) "pos")
               (rev (Settings.tasks Demo.settings)).
Proof.
  assert (H : Settings.include_lm Demo.settings = false) by reflexivity.
  split; [exact H |].
  exact (init_last_task_wins (St:=nat) Demo.settings "pos" H).
Defined.

(** X9, on [Demo.scheduler] and a score for a task it does not track. *)
Lemma step_ignores_unknown_tasks_witness :
  Forall (fun item => TaskScheduler.tasks Demo.scheduler !! fst item = None)
    [("chunk", Py.Fin 1)]
  /\ TaskScheduler.step [("chunk", Py.Fin 1)] 0%nat Demo.scheduler
     = Py.Ok tt Demo.scheduler.
Proof.
  assert (H : Forall (fun item => TaskScheduler.tasks Demo.scheduler !! fst item = None)
                [("chunk", Py.Fin 1)])
    by (repeat constructor; vm_compute; reflexivity).
  split; [exact H |].
  exact (step_ignores_unknown_tasks [("chunk", Py.Fin 1)] 0%nat Demo.scheduler H).
Defined.

(** X11, on [Demo.scheduler] and two calls for [pos]. *)
Lemma target_weight_is_constant_witness :
  TaskScheduler.tasks Demo.scheduler !! "pos" = Some Demo.pos_data
  /\ TData.is_target Demo.pos_data = true
  /\ TaskScheduler.get_weights
       (TaskScheduler.run_calls [Demo.pos_call; Demo.pos_call] Demo.scheduler)
     !! "pos" = Some (TData.weight Demo.pos_data).
Proof.
  assert (H1 : TaskScheduler.tasks Demo.scheduler !! "pos" = Some Demo.pos_data)
    by (vm_compute; reflexivity).
  assert (H2 : TData.is_target Demo.pos_data = true) by reflexivity.
  repeat (split; [assumption |]).
  exact (target_weight_is_constant [Demo.pos_call; Demo.pos_call]
           Demo.scheduler "pos" Demo.pos_data H1 H2).
Defined.

(** X12, on the third call for [pos]. *)
Lemma early_stop_payload_witness :
  TaskScheduler.step [("pos", Py.Fin (1 # 2))] 0%nat Demo.before_stop
  = Py.Raise (Py.EarlyStopException "pos" (Py.Fin (1 # 2)) 0%nat)
      (Py.final (TaskScheduler.step [("pos", Py.Fin (1 # 2))] 0%nat
                   Demo.before_stop))
  /\ TaskScheduler.fid
       (Py.final (TaskScheduler.step [("pos", Py.Fin (1 # 2))] 0%nat
                    Demo.before_stop)) = None.
Proof.
  assert (H : TaskScheduler.step [("pos", Py.Fin (1 # 2))] 0%nat Demo.before_stop
              = Py.Raise (Py.EarlyStopException "pos" (Py.Fin (1 # 2)) 0%nat)
                  (Py.final (TaskScheduler.step [("pos", Py.Fin (1 # 2))] 0%nat
                               Demo.before_stop)))
    by (vm_compute; reflexivity).
  split; [exact H |].
  exact (proj1 (proj2 (early_stop_payload _ _ _ _ _ _ _ H))).
Defined.

(** X13, on [Demo.scheduler]. *)
Lemma target_improvement_saves_snapshot_witness :
  TaskScheduler.tasks Demo.scheduler !! "pos" = Some Demo.pos_data
  /\ TData.is_target Demo.pos_data = true
  /\ TaskScheduler.improves Demo.pos_data
       (Py.get (TData.threshold Demo.pos_data)
               (TaskScheduler.threshold Demo.scheduler)) (Py.Fin (1 # 2))
     = Some true
  /\ exists s',
      TaskScheduler.step [("pos", Py.Fin (1 # 2))] 7%nat Demo.scheduler = Py.Ok tt s'
      /\ TaskScheduler.fid s' = Some 7%nat
      /\ TaskScheduler.tasks s' !! "pos"
         = Some (TData.improved (Py.Fin (1 # 2)) Demo.pos_data).
Proof.
  assert (H1 : TaskScheduler.tasks Demo.scheduler !! "pos" = Some Demo.pos_data)
    by (vm_compute; reflexivity).
  assert (H2 : TData.is_target Demo.pos_data = true) by reflexivity.
  assert (H3 : TaskScheduler.improves Demo.pos_data
                 (Py.get (TData.threshold Demo.pos_data)
                         (TaskScheduler.threshold Demo.scheduler)) (Py.Fin (1 # 2))
               = Some true) by reflexivity.
  repeat (split; [assumption |]).
  apply (proj1 (target_improvement_saves_snapshot 7%nat Demo.scheduler "pos"
                  Demo.pos_data (Py.Fin (1 # 2)) H1 H2 H3)).
  reflexivity.
Defined.

(** X14, on [Demo.scheduler] and a score for [lemma]. *)
Lemma auxiliary_scores_never_stop_witness :
  Forall (fun item => forall td,
              TaskScheduler.tasks Demo.scheduler !! fst item = Some td ->
              TData.is_target td = false) [("lemma", Py.Fin (1 # 2))]
  /\ TaskScheduler.fid
       (Py.final (TaskScheduler.step [("lemma", Py.Fin (1 # 2))] 0%nat
                    Demo.scheduler))
     = TaskScheduler.fid Demo.scheduler.
Proof.
  assert (H : Forall (fun item => forall td,
                          TaskScheduler.tasks Demo.scheduler !! fst item = Some td ->
                          TData.is_target td = false) [("lemma", Py.Fin (1 # 2))]).
  { repeat constructor. intros td Htd. vm_compute in Htd.
    injection Htd as <-. reflexivity. }
  split; [exact H |].
  exact (proj1 (auxiliary_scores_never_stop [("lemma", Py.Fin (1 # 2))] 0%nat
                  Demo.scheduler H)).
Defined.

(** X15, on [Demo.scheduler] and a call for [pos]. *)
Lemma best_only_improves_witness :
  TaskScheduler.tasks Demo.scheduler !! "pos" = Some Demo.pos_data
  /\ (0 <= Py.get (TData.threshold Demo.pos_data)
                  (TaskScheduler.threshold Demo.scheduler))%Q
  /\ exists td',
      TaskScheduler.tasks (TaskScheduler.run_calls [Demo.pos_call] Demo.scheduler)
      !! "pos" = Some td'
      /\ Py.le (TData.best Demo.pos_data) (TData.best td').
Proof.
  assert (H1 : TaskScheduler.tasks Demo.scheduler !! "pos" = Some Demo.pos_data)
    by (vm_compute; reflexivity).
  assert (H2 : (0 <= Py.get (TData.threshold Demo.pos_data)
                         (TaskScheduler.threshold Demo.scheduler))%Q)
    by (unfold Qle; simpl; lia).
  repeat (split; [assumption |]).
  destruct (best_only_improves [Demo.pos_call] Demo.scheduler "pos" Demo.pos_data
              H1 H2) as (td' & H' & Hmax & _).
  exists td'. split; [exact H' | exact (Hmax eq_refl)].
Defined.

(** X16, on [Demo.stuck] and two more evaluations of the same score. *)
Lemma stuck_weight_decays_geometrically_witness :
  TaskScheduler.tasks Demo.stuck !! "lemma" = Some Demo.lemma_stuck
  /\ TData.is_target Demo.lemma_stuck = false
  /\ (2 <= TData.steps Demo.lemma_stuck + 1)%Z
  /\ Forall (fun v => TaskScheduler.improves Demo.lemma_stuck 0 v = Some false)
       [Py.Fin (1 # 2); Py.Fin (1 # 2)]
  /\ (0 <= 1 # 2 <= 1)%Q
  /\ (0 <= 1 # 10 <= TData.weight Demo.lemma_stuck)%Q
  /\ exists td',
      TaskScheduler.tasks
        (TaskScheduler.evaluations "lemma" [Py.Fin (1 # 2); Py.Fin (1 # 2)]
           0%nat Demo.stuck) !! "lemma" = Some td'
      /\ (TData.weight td' == Py.max (1 * (1 # 2) * (1 # 2)) (1 # 10))%Q.
Proof.
  assert (H1 : TaskScheduler.tasks Demo.stuck !! "lemma" = Some Demo.lemma_stuck)
    by (vm_compute; reflexivity).
  assert (H2 : TData.is_target Demo.lemma_stuck = false) by reflexivity.
  assert (H3 : (2 <= TData.steps Demo.lemma_stuck + 1)%Z) by (simpl; lia).
  assert (H4 : Forall (fun v => TaskScheduler.improves Demo.lemma_stuck 0 v
                                = Some false) [Py.Fin (1 # 2); Py.Fin (1 # 2)])
    by (repeat constructor).
  assert (H5 : (0 <= 1 # 2 <= 1)%Q) by (split; unfold Qle; simpl; lia).
  assert (H6 : (0 <= 1 # 10 <= TData.weight Demo.lemma_stuck)%Q)
    by (split; unfold Qle; simpl; lia).
  repeat (split; [assumption |]).
  exact (stuck_weight_decays_geometrically 0%nat Demo.stuck "lemma"
           Demo.lemma_stuck [Py.Fin (1 # 2); Py.Fin (1 # 2)] H1 H2 H3 H4 H5 H6).
Defined.

(** X17, on a delayer past its delay. *)
Lemma delayer_never_waits_again_witness :
  DelayerScheduler.waiting (DelayerScheduler.Make 3 2 0%Z) = false
  /\ DelayerScheduler.base_scheduler
       (DelayerScheduler.steps_run (Demo.base_step ReduceLROnPlateau)
          [None; None] (DelayerScheduler.Make 3 2 0%Z))
     = DelayerScheduler.base_run (Demo.base_step ReduceLROnPlateau) [None; None] 0%Z.
Proof.
  assert (H : DelayerScheduler.waiting (DelayerScheduler.Make 3 2 0%Z) = false)
    by reflexivity.
  split; [exact H |].
  exact (proj2 (delayer_never_waits_again (Demo.base_step ReduceLROnPlateau)
                  [None; None] (DelayerScheduler.Make 3 2 0%Z) H)).
Defined.

(** X18, with the delay [-1]. *)
Lemma delayer_negative_delay_witness :
  (-1 < 0)%Z
  /\ DelayerScheduler.waiting
       (DelayerScheduler.steps_run (Demo.base_step ReduceLROnPlateau) [None]
          (DelayerScheduler.init (Demo.base_step ReduceLROnPlateau) (-1) 0%Z))
     = false.
Proof.
  assert (H : (-1 < 0)%Z) by lia.
  split; [exact H |].
  exact (proj1 (delayer_negative_delay (Demo.base_step ReduceLROnPlateau)
                  (-1) 0%Z [None] H)).
Defined.

(** X21, on the trainer of [Demo.settings] and two checks. *)
Lemma lr_schedule_after_checks_witness :
  Demo.new_trainer Demo.settings = inr Demo.trainer
  /\ exists kind base,
      Trainer.get_scheduler (St:=nat) Demo.settings = inr kind
      /\ Demo.base_init kind Demo.settings = inr base
      /\ Trainer.lr_base
           (Trainer.lr_scheduler
              (fold_left
                 (fun s l => Trainer.step_lr_scheduler Demo.base_step l s)
                 [Py.Fin (1 # 2); Py.Fin (1 # 2)] Demo.trainer))
         = DelayerScheduler.base_run (Demo.base_step kind)
             (skipn (Z.to_nat (Settings.lr_delayed Demo.settings))
                (map (fun loss => match kind with
                                  | ReduceLROnPlateau => Some loss
                                  | _ => None
                                  end) [Py.Fin (1 # 2); Py.Fin (1 # 2)]))
             base.
Proof.
  assert (H : Demo.new_trainer Demo.settings = inr Demo.trainer) by reflexivity.
  split; [exact H |].
  exact (lr_schedule_after_checks Demo.known_optimizer Demo.new_optimizer
           Demo.base_init Demo.base_step Demo.settings 0%nat 1 [tt; tt; tt] 3
           Demo.trainer [Py.Fin (1 # 2); Py.Fin (1 # 2)] H).
Defined.

(** X22, on [Demo.trainer] without a dev set. *)
Lemma train_epoch_without_check_witness :
  ((None : option unit) = None
   \/ (Z.of_nat (length (Trainer.batches Demo.trainer))
       <= Trainer.check_freq Demo.trainer)%Z)
  /\ Trainer.task_scheduler (Py.final (Demo.train_epoch None 1 Demo.trainer))
     = Trainer.task_scheduler Demo.trainer.
Proof.
  assert (H : (None : option unit) = None
              \/ (Z.of_nat (length (Trainer.batches Demo.trainer))
                  <= Trainer.check_freq Demo.trainer)%Z) by (left; reflexivity).
  split; [exact H |].
  exact (proj1 (train_epoch_without_check Demo.tasks Demo.random Demo.model_loss
                  Demo.optimize Demo.evaluate Demo.accuracies Demo.state_dict
                  Demo.base_step None 1 Demo.trainer H)).
Defined.

(** X24, on [Demo.trainer] and a loss for [pos] and an untracked task. *)
Lemma weight_loss_unweighted_witness :
  Forall (fun kv =>
            Py.get (TaskScheduler.get_weights (Trainer.task_scheduler Demo.trainer)
                    !! fst kv) 1%Q = 1%Q) [("pos", 3%Q); ("chunk", 4%Q)]
  /\ (Trainer.weight_loss [("pos", 3%Q); ("chunk", 4%Q)] Demo.trainer
      == Random.total (map snd [("pos", 3%Q); ("chunk", 4%Q)]))%Q.
Proof.
  assert (H : Forall (fun kv =>
                        Py.get (TaskScheduler.get_weights
                                  (Trainer.task_scheduler Demo.trainer)
                                !! fst kv) 1%Q = 1%Q)
                [("pos", 3%Q); ("chunk", 4%Q)])
    by (repeat constructor; vm_compute; reflexivity).
  split; [exact H |].
  exact (weight_loss_unweighted [("pos", 3%Q); ("chunk", 4%Q)] Demo.trainer H).
Defined.
